(** * Dealls mentoring UI suite: page objects and configuration

    A shallow embedding of [src/pages/base-page.ts] (class [BasePage]),
    of the mentoring page object (class [MentoringPage]) and of
    [src/config/test-config.ts] ([getTestConfig]).

    The browser driver (Playwright's [Page] and [Locator]) is an external
    collaborator.  It is kept abstract: a type of worlds together with one
    transition function per driver call that the page objects make.  The
    page-object methods are written in a state-and-exception monad over
    that world; every driver call is also recorded in a trace, so that
    statements about "which driver interactions happened" can be made.

    Strings are modelled on their ASCII range: [trim] removes the ASCII
    white space characters and [toLowerCase] maps [A-Z] to [a-z].
    [console.log] output is not part of the model. *)

From Stdlib Require Import ZArith Lia Strings.Ascii Strings.String.
From stdpp Require Import gmap strings list pretty.

Local Open Scope Z_scope.

(* ===================================================================== *)
(** ** JavaScript values used by the page objects                        *)
(* ===================================================================== *)

Module Js.

(** The double quote character, used inside error messages. *)
Definition dq : string := String "034"%char EmptyString.

(** White space removed by [String.prototype.trim] (ASCII range):
    TAB, LF, VT, FF, CR and SPACE. *)
Definition is_space (c : ascii) : bool :=
  let n := nat_of_ascii c in
  ((9 <=? n)%nat && (n <=? 13)%nat) || (n =? 32)%nat.

Fixpoint trimStart (s : string) : string :=
  match s with
  | EmptyString => EmptyString
  | String c s' => if is_space c then trimStart s' else s
  end.

(** [trimEnd] drops the maximal white-space suffix. *)
Fixpoint trimEnd (s : string) : string :=
  match s with
  | EmptyString => EmptyString
  | String c s' =>
      match trimEnd s' with
      | EmptyString => if is_space c then EmptyString else String c EmptyString
      | t => String c t
      end
  end.

Definition trim (s : string) : string := trimEnd (trimStart s).

(** [String.prototype.toLowerCase] on the ASCII range. *)
Definition lower_char (c : ascii) : ascii :=
  let n := nat_of_ascii c in
  if ((65 <=? n)%nat && (n <=? 90)%nat)%bool then ascii_of_nat (n + 32) else c.

Fixpoint toLowerCase (s : string) : string :=
  match s with
  | EmptyString => EmptyString
  | String c s' => String (lower_char c) (toLowerCase s')
  end.

(** [s.includes(p)]: [p] occurs at some position of [s]. *)
Fixpoint includes (s p : string) : bool :=
  if String.prefix p s then true
  else match s with
       | EmptyString => false
       | String _ s' => includes s' p
       end.

(** [s.split(' ').length]: one more than the number of spaces. *)
Fixpoint split_space_length (s : string) : nat :=
  match s with
  | EmptyString => 1
  | String c s' =>
      if Ascii.eqb c " "%char then S (split_space_length s')
      else split_space_length s'
  end.

(** Template-literal rendering of an integer. *)
Definition show_Z (z : Z) : string := pretty z.
Definition show_nat (n : nat) : string := pretty n.

(** Thrown values.  Everything thrown in this code base is an [Error]
    object (or a subclass raised by the driver): a name and a message. *)
Record JsError : Type := mkJsError { err_name : string; err_message : string }.

(** [new Error(msg)]. *)
Definition Error (msg : string) : JsError := mkJsError "Error" msg.

(** [`${error}`], that is [Error.prototype.toString]. *)
Definition error_toString (e : JsError) : string :=
  if String.eqb (err_name e) EmptyString then err_message e
  else if String.eqb (err_message e) EmptyString then err_name e
  else err_name e +:+ ": " +:+ err_message e.

(** Outcome of an awaited call: a value or a thrown error. *)
Inductive Res (A : Type) : Type :=
| Ok (a : A)
| Throw (e : JsError).
Arguments Ok {A} a.
Arguments Throw {A} e.

Definition is_ok {A} (r : Res A) : bool :=
  match r with Ok _ => true | Throw _ => false end.

End Js.
Export Js.

(** Vocabulary for statements about strings. *)
Module Text.

(** The string is empty or made of white space only. *)
Fixpoint all_space (s : string) : bool :=
  match s with
  | EmptyString => true
  | String c s' => is_space c && all_space s'
  end.

Definition is_upper (c : ascii) : Prop :=
  (65 <= nat_of_ascii c <= 90)%nat.

(** Two characters are the same up to the case of a letter. *)
Definition same_letter (c d : ascii) : Prop :=
  c = d
  \/ (is_upper c /\ nat_of_ascii d = (nat_of_ascii c + 32)%nat)
  \/ (is_upper d /\ nat_of_ascii c = (nat_of_ascii d + 32)%nat).

(** Two strings are equal up to the case of their letters. *)
Fixpoint same_text (s t : string) : Prop :=
  match s, t with
  | EmptyString, EmptyString => True
  | String c s', String d t' => same_letter c d /\ same_text s' t'
  | _, _ => False
  end.

(** [s] contains [p], ignoring the case of letters. *)
Definition contains_ci (s p : string) : Prop :=
  exists pre mid post, s = pre +:+ mid +:+ post /\ same_text mid p.

End Text.
Export Text.

(* ===================================================================== *)
(** ** The browser driver                                                 *)
(* ===================================================================== *)

Module Playwright.

(** [locator.waitFor({ state })]. *)
Inductive ElState : Type := Visible | Hidden.

(** [page.waitForLoadState(state)]. *)
Inductive LoadState : Type := Load | DomContentLoaded | NetworkIdle.

(** Locators as the page objects build them: [page.locator(selector)],
    [l.nth(i)] and [l.first()]. *)
Inductive Locator : Type :=
| locator (selector : string)
| nth (l : Locator) (i : nat)
| first (l : Locator).

(** One event per driver call, with the arguments of the call. *)
Inductive Event : Type :=
| EWaitFor (l : Locator) (st : ElState) (timeout : Z)
| EIsVisible (l : Locator)
| EClear (l : Locator)
| EFill (l : Locator) (text : string) (timeout : Z)
| EInputValue (l : Locator)
| EClick (l : Locator) (timeout : Z) (force : bool)
| EPress (l : Locator) (key : string)
| ETitle
| EUrl
| EWaitForLoadState (st : LoadState) (timeout : option Z)
| EWaitForTimeout (ms : Z)
| ETextContent (selector : string)
| EQueryAll (selector : string).

(** The driver over a type [W] of worlds (browser and page under test).
    Each call maps a world to an outcome and the next world; the page
    may change at every call.  Every awaited call may throw,
    [page.waitForTimeout] included; [page.url()] is a synchronous read.  [page_queryAll] gives the length of
    the array returned by [page.$$(selector)], the only use the page
    objects make of it. *)
Class Driver (W : Type) : Type := {
  locator_waitFor : Locator -> ElState -> Z -> W -> Res unit * W;
  locator_isVisible : Locator -> W -> Res bool * W;
  locator_clear : Locator -> W -> Res unit * W;
  locator_fill : Locator -> string -> Z -> W -> Res unit * W;
  locator_inputValue : Locator -> W -> Res string * W;
  locator_click : Locator -> Z -> bool -> W -> Res unit * W;
  locator_press : Locator -> string -> W -> Res unit * W;
  locator_toString : Locator -> string;
  page_title : W -> Res string * W;
  page_url : W -> string;
  page_waitForLoadState : LoadState -> option Z -> W -> Res unit * W;
  page_waitForTimeout : Z -> W -> Res unit * W;
  page_textContent : string -> W -> Res (option string) * W;
  page_queryAll : string -> W -> Res nat * W;
  (** the error raised by a failing [expect(actual).toContain(expected)] *)
  expect_toContain_error : string -> string -> JsError
}.

(** Execution state: the world and the driver calls made so far. *)
Record St (W : Type) : Type := mkSt { world : W; trace : list Event }.
Arguments mkSt {W} world trace.
Arguments world {W} s.
Arguments trace {W} s.

(** Asynchronous methods: state passing with exceptions. *)
Definition M (W A : Type) : Type := St W -> Res A * St W.

Definition ret {W A} (a : A) : M W A := fun s => (Ok a, s).

Definition throw {W A} (e : JsError) : M W A := fun s => (Throw e, s).

Definition bind {W A B} (m : M W A) (k : A -> M W B) : M W B :=
  fun s =>
    match m s with
    | (Ok a, s') => k a s'
    | (Throw e, s') => (Throw e, s')
    end.

(** [try { m } catch (error) { h error }]. *)
Definition try_catch {W A} (m : M W A) (h : JsError -> M W A) : M W A :=
  fun s =>
    match m s with
    | (Ok a, s') => (Ok a, s')
    | (Throw e, s') => h e s'
    end.

(** A driver call that may throw, recorded in the trace. *)
Definition call {W A} (ev : Event) (f : W -> Res A * W) : M W A :=
  fun s =>
    let (r, w') := f (world s) in
    (r, mkSt w' (trace s ++ [ev])).

(** A driver call that cannot throw. *)
Definition call_total {W A} (ev : Event) (f : W -> A * W) : M W A :=
  fun s =>
    let (a, w') := f (world s) in
    (Ok a, mkSt w' (trace s ++ [ev])).

End Playwright.
Export Playwright.

(** [M W] is a monad in the sense of stdpp, which gives the notations
    [x ← m; k] and [m ;; k] for sequencing awaited calls. *)
#[global] Instance M_ret {W} : MRet (M W) := fun A a => ret a.
#[global] Instance M_bind {W} : MBind (M W) := fun A B k m => bind m k.

(* ===================================================================== *)
(** ** [BasePage] (src/pages/base-page.ts)                                *)
(* ===================================================================== *)

Module BasePage.
Section WithDriver.
Context {W : Type} `{Driver W}.

(** [waitForElement(locator, timeout = 30000)]. *)
Definition waitForElement (l : Locator) (timeout : option Z) : M W unit :=
  let timeout := default 30000 timeout in
  try_catch
    (call (EWaitFor l Visible timeout) (locator_waitFor l Visible timeout))
    (fun _ => throw (Error ("Element not found within " +:+ show_Z timeout
                            +:+ "ms: " +:+ locator_toString l))).

(** Options of [clickElement]. *)
Record ClickOptions : Type :=
  mkClickOptions { click_timeout : option Z; click_force : option bool }.

(** [options?.timeout || 10000]: absent and [0] both give the default. *)
Definition timeout_or (d : Z) (t : option Z) : Z :=
  match t with
  | Some t => if t =? 0 then d else t
  | None => d
  end.

(** [clickElement(locator, options?)]. *)
Definition clickElement (l : Locator) (options : option ClickOptions) : M W unit :=
  try_catch
    (waitForElement l (options ≫= click_timeout) ;;
     let timeout := timeout_or 10000 (options ≫= click_timeout) in
     let force := default false (options ≫= click_force) in
     call (EClick l timeout force) (locator_click l timeout force))
    (fun error => throw (Error ("Failed to click element " +:+ locator_toString l
                                +:+ ": " +:+ error_toString error))).

(** Options of [typeText]. *)
Record TypeOptions : Type :=
  mkTypeOptions { type_clear : option bool; type_delay : option Z }.

(** [options?.clear !== false]. *)
Definition clear_wanted (options : option TypeOptions) : bool :=
  match options ≫= type_clear with
  | Some false => false
  | _ => true
  end.

(** The error raised when the value read back differs from the text. *)
Definition verification_failed (text inputValue : string) : JsError :=
  Error ("Text verification failed. Expected: " +:+ dq +:+ text +:+ dq
         +:+ ", Actual: " +:+ dq +:+ inputValue +:+ dq).

(** The first half of the [try] block of [typeText]: wait for the field,
    clear it unless told not to, fill it. *)
Definition typeText_fill (l : Locator) (text : string)
    (options : option TypeOptions) : M W unit :=
  waitForElement l None ;;
  (if clear_wanted options then call (EClear l) (locator_clear l) else ret tt) ;;
  call (EFill l text 10000) (locator_fill l text 10000).

(** The whole [try] block of [typeText]: fill, then read the value back
    and compare it with [text]. *)
Definition typeText_body (l : Locator) (text : string)
    (options : option TypeOptions) : M W unit :=
  typeText_fill l text options ;;
  inputValue ← call (EInputValue l) (locator_inputValue l);
  if negb (String.eqb inputValue text) then
    throw (verification_failed text inputValue)
  else ret tt.

(** [typeText(locator, text, options?)]. *)
Definition typeText (l : Locator) (text : string)
    (options : option TypeOptions) : M W unit :=
  try_catch (typeText_body l text options)
    (fun error => throw (Error ("Failed to type text " +:+ dq +:+ text +:+ dq
                                +:+ " into " +:+ locator_toString l
                                +:+ ": " +:+ error_toString error))).

(** [isElementVisible(locator, timeout = 5000)]. *)
Definition isElementVisible (l : Locator) (timeout : option Z) : M W bool :=
  let timeout := default 5000 timeout in
  try_catch
    (call (EWaitFor l Visible timeout) (locator_waitFor l Visible timeout) ;;
     ret true)
    (fun _ => ret false).

(** [getPageTitle()]. *)
Definition getPageTitle : M W string :=
  try_catch (call ETitle page_title)
    (fun error => throw (Error ("Failed to get page title: "
                                +:+ error_toString error))).

(** [getCurrentUrl()]. *)
Definition getCurrentUrl : M W string :=
  call_total EUrl (fun w => (page_url w, w)).

(** [waitForPageLoad(timeout = 30000)]. *)
Definition waitForPageLoad (timeout : option Z) : M W unit :=
  let timeout := default 30000 timeout in
  try_catch
    (call (EWaitForLoadState NetworkIdle (Some timeout))
          (page_waitForLoadState NetworkIdle (Some timeout)))
    (fun error => throw (Error ("Page failed to load within " +:+ show_Z timeout
                                +:+ "ms: " +:+ error_toString error))).

(** [wait(milliseconds)]. *)
Definition wait (milliseconds : Z) : M W unit :=
  call (EWaitForTimeout milliseconds) (page_waitForTimeout milliseconds).

(** [verifyCurrentUrl(expectedPath)]. *)
Definition verifyCurrentUrl (expectedPath : string) : M W unit :=
  currentUrl ← getCurrentUrl;
  if includes currentUrl expectedPath then ret tt
  else throw (expect_toContain_error currentUrl expectedPath).

End WithDriver.
End BasePage.
Export BasePage.

(* ===================================================================== *)
(** ** [MentoringPage]                                                    *)
(* ===================================================================== *)

Module MentoringPage.

(** A quoted attribute value inside a selector. *)
Definition q (s : string) : string := dq +:+ s +:+ dq.

(** [this.pageTitle], as initialised by the constructor. *)
Definition pageTitle : Locator :=
  locator ("h1, [data-testid=" +:+ q "page-title" +:+ "], .page-title, .hero-title").

(** The selector lists, in source order. *)
Definition loadingSelectors : list string :=
  [".loading"; ".spinner"; ".loader"; "[data-loading]";
   ".skeleton"; ".shimmer"; "[class*=" +:+ q "loading" +:+ "]"].

Definition contentSelectors : list string :=
  [".mentor-card"; ".mentor-item"; ".card"; ".profile-card";
   "[data-testid*=" +:+ q "mentor" +:+ "]"; ".mentor"; "[class*=" +:+ q "mentor" +:+ "]";
   ".grid"; ".flex"; "[class*=" +:+ q "grid" +:+ "]"; "[class*=" +:+ q "flex" +:+ "]";
   "main"; ".main"; ".content"; ".container"].

Definition searchSelectors : list string :=
  ["input[type=" +:+ q "search" +:+ "]";
   "input[placeholder*=" +:+ q "search" +:+ " i]";
   "input[placeholder*=" +:+ q "cari" +:+ " i]";
   "input[placeholder*=" +:+ q "mentor" +:+ " i]";
   ".search-input";
   "[data-testid*=" +:+ q "search" +:+ "]";
   "input[name*=" +:+ q "search" +:+ "]"].

Definition searchButtonSelectors : list string :=
  ["button[type=" +:+ q "submit" +:+ "]";
   "button:has-text(" +:+ q "Search" +:+ ")";
   "button:has-text(" +:+ q "Cari" +:+ ")";
   ".search-button";
   "[data-testid*=" +:+ q "search-button" +:+ "]"].

Definition cardSelectors : list string :=
  [".mentor-card"; ".mentor-item"; ".card"; ".profile-card";
   "[data-testid*=" +:+ q "mentor" +:+ "]"; ".mentor"; "[class*=" +:+ q "mentor" +:+ "]";
   ".grid > div"; ".flex > div"; "[class*=" +:+ q "grid" +:+ "] > div";
   ".container > div"; ".content > div"].

Definition noResultsSelectors : list string :=
  [".no-results"; ".empty-state"; "[data-testid=" +:+ q "no-results" +:+ "]";
   ".empty"; ".not-found"; "[class*=" +:+ q "empty" +:+ "]"].

(** The title test of [verifyPageLoaded]: the lower-cased title has to
    include one of the three markers. *)
Definition titleCheck (title : string) : Res unit :=
  let titleLower := toLowerCase title in
  if negb (includes titleLower "mentoring") && negb (includes titleLower "mentor")
     && negb (includes titleLower "karir")
  then Throw (Error ("Page title does not indicate mentoring page. Actual title: "
                     +:+ dq +:+ title +:+ dq))
  else Ok tt.

(** [!keyword || keyword.trim().length === 0]. *)
Definition keyword_is_blank (keyword : string) : bool :=
  String.eqb keyword EmptyString || (String.length (trim keyword) =? 0)%nat.

Section WithDriver.
Context {W : Type} `{Driver W}.

(** Lift a pure outcome into the monad. *)
Definition lift {A} (r : Res A) : M W A := fun s => (r, s).

(** The loading-indicator loop of [verifyPageLoaded]: each iteration sits in
    its own [try]/[catch] that swallows every error. *)
Fixpoint verifyPageLoaded_drain (selectors : list string) : M W unit :=
  match selectors with
  | [] => ret tt
  | selector :: rest =>
      let loadingElement := locator selector in
      try_catch
        (visible ← call (EIsVisible loadingElement) (locator_isVisible loadingElement);
         if visible : bool then
           call (EWaitFor loadingElement Hidden 15000)
                (locator_waitFor loadingElement Hidden 15000)
         else ret tt)
        (fun _ => ret tt) ;;
      verifyPageLoaded_drain rest
  end.

(** The content-detection loop of [verifyPageLoaded]: stops at the first
    selector matching at least one element. *)
Fixpoint verifyPageLoaded_content (selectors : list string) : M W bool :=
  match selectors with
  | [] => ret false
  | selector :: rest =>
      n ← call (EQueryAll selector) (page_queryAll selector);
      if (0 <? n)%nat then ret true else verifyPageLoaded_content rest
  end.

(** [bodyText?.split(' ').length || 0]. *)
Definition wordCount_of (bodyText : option string) : nat :=
  match bodyText with
  | Some t => split_space_length t
  | None => 0%nat
  end.

(** [verifyPageLoaded()], from the URL check to the end. *)
Definition verifyPageLoaded_afterTitle : M W unit :=
  verifyCurrentUrl "/mentoring" ;;
  call (EWaitForLoadState DomContentLoaded None)
       (page_waitForLoadState DomContentLoaded None) ;;
  call (EWaitForLoadState NetworkIdle None)
       (page_waitForLoadState NetworkIdle None) ;;
  verifyPageLoaded_drain loadingSelectors ;;
  wait 3000 ;;
  bodyText ← call (ETextContent "body") (page_textContent "body");
  let wordCount := wordCount_of bodyText in
  if (wordCount <? 50)%nat then
    throw (Error ("Page appears to be empty or not fully loaded. Word count: "
                  +:+ show_nat wordCount))
  else
    _ ← verifyPageLoaded_content contentSelectors;
    ret tt.

(** [verifyPageLoaded()]. *)
Definition verifyPageLoaded : M W unit :=
  waitForElement pageTitle (Some 20000) ;;
  title ← getPageTitle;
  lift (titleCheck title) ;;
  verifyPageLoaded_afterTitle.

(** The counting loop of [getMentorCount]: [maxCount] and [workingSelector]
    are the loop-carried variables; a throwing [page.$$] is skipped. *)
Fixpoint getMentorCount_scan (selectors : list string)
    (maxCount : nat) (workingSelector : string) : M W (nat * string) :=
  match selectors with
  | [] => ret (maxCount, workingSelector)
  | selector :: rest =>
      upd ← try_catch
              (n ← call (EQueryAll selector) (page_queryAll selector);
               if (maxCount <? n)%nat then ret (n, selector)
               else ret (maxCount, workingSelector))
              (fun _ => ret (maxCount, workingSelector));
      getMentorCount_scan rest upd.1 upd.2
  end.

(** The "no results" loop of [getMentorCount]: [true] when some indicator
    was seen (the source returns [0] at that point). *)
Fixpoint getMentorCount_noResults (selectors : list string) : M W bool :=
  match selectors with
  | [] => ret false
  | selector :: rest =>
      visible ← isElementVisible (locator selector) None;
      if visible : bool then ret true else getMentorCount_noResults rest
  end.

(** [getMentorCount()]. *)
Definition getMentorCount : M W nat :=
  wait 2000 ;;
  found ← getMentorCount_scan cardSelectors 0%nat EmptyString;
  let maxCount := found.1 in
  if (0 <? maxCount)%nat then ret maxCount
  else
    seen ← getMentorCount_noResults noResultsSelectors;
    if seen : bool then ret 0%nat else ret maxCount.

(** The loading-indicator loop of [waitForSearchResults]. *)
Fixpoint waitForSearchResults_drain (selectors : list string) : M W unit :=
  match selectors with
  | [] => ret tt
  | selector :: rest =>
      let loadingElement := locator selector in
      try_catch
        (visible ← isElementVisible loadingElement (Some 2000);
         if visible : bool then
           call (EWaitFor loadingElement Hidden 15000)
                (locator_waitFor loadingElement Hidden 15000)
         else ret tt)
        (fun _ => ret tt) ;;
      waitForSearchResults_drain rest
  end.

(** The stabilization phase of [waitForSearchResults], from "Wait for
    content to stabilize" to the end of the method. *)
Definition waitForSearchResults_stabilize : M W unit :=
  wait 3000 ;;
  beforeCount ← getMentorCount;
  wait 2000 ;;
  afterCount ← getMentorCount;
  if (beforeCount =? afterCount)%nat then ret tt
  else wait 2000.

(** [waitForSearchResults()]. *)
Definition waitForSearchResults : M W unit :=
  waitForSearchResults_drain loadingSelectors ;;
  waitForSearchResults_stabilize.

(** The search-input loop of [searchMentors]: candidates are probed in list
    order, each for [timeout] ms; the loop breaks at the first visible one
    and yields its locator and selector ([searchInput], [workingSelector]). *)
Fixpoint searchMentors_findInput (selectors : list string) (timeout : Z)
    : M W (option (Locator * string)) :=
  match selectors with
  | [] => ret None
  | selector :: rest =>
      let element := locator selector in
      visible ← isElementVisible element (Some timeout);
      if visible : bool then ret (Some (element, selector))
      else searchMentors_findInput rest timeout
  end.

(** The submit loop of [searchMentors]: clicks the first visible button and
    yields [searchSubmitted]. *)
Fixpoint searchMentors_submit (selectors : list string) : M W bool :=
  match selectors with
  | [] => ret false
  | selector :: rest =>
      let button := locator selector in
      visible ← isElementVisible button (Some 1000);
      if visible : bool then clickElement button None ;; ret true
      else searchMentors_submit rest
  end.

(** What [searchMentors] does once the search input is bound. *)
Definition searchMentors_withInput (searchInput : Locator) (keyword : string)
    : M W unit :=
  typeText searchInput keyword None ;;
  searchSubmitted ← searchMentors_submit searchButtonSelectors;
  (if searchSubmitted : bool then ret tt
   else call (EPress searchInput "Enter") (locator_press searchInput "Enter")) ;;
  waitForSearchResults.

(** [searchMentors(keyword)]. *)
Definition searchMentors (keyword : string) : M W unit :=
  if keyword_is_blank keyword then
    throw (Error "Search keyword cannot be empty")
  else
    waitForPageLoad None ;;
    found ← searchMentors_findInput searchSelectors 2000;
    match found with
    | None => throw (Error "Search input not available on the page")
    | Some (searchInput, _) => searchMentors_withInput searchInput keyword
    end.

End WithDriver.
End MentoringPage.
Export MentoringPage.

(** Vocabulary for statements about probing and counting. *)
Module Probe.
Section WithDriver.
Context {W : Type} `{Driver W}.

(** The candidates of a list are probed one after the other, each for
    [timeout] ms, and none of them is visible; the probes lead from the
    first state to the second. *)
Inductive all_hidden (timeout : Z) : list string -> St W -> St W -> Prop :=
| all_hidden_nil s : all_hidden timeout [] s s
| all_hidden_cons selector rest s s1 s2 :
    isElementVisible (locator selector) (Some timeout) s = (Ok false, s1) ->
    all_hidden timeout rest s1 s2 ->
    all_hidden timeout (selector :: rest) s s2.

(** [page.$$] is asked for each selector in turn: the outcomes, and the
    state at the end. *)
Fixpoint queryAll_each (selectors : list string) (s : St W)
    : list (Res nat) * St W :=
  match selectors with
  | [] => ([], s)
  | selector :: rest =>
      let (r, s1) := call (EQueryAll selector) (page_queryAll selector) s in
      let (rs, s2) := queryAll_each rest s1 in
      (r :: rs, s2)
  end.

(** The number of elements an outcome of [page.$$] reports; a call that
    threw reports none. *)
Definition count_of (r : Res nat) : nat :=
  match r with
  | Ok n => n
  | Throw _ => 0%nat
  end.

End WithDriver.

(** The timer of the driver never rejects. *)
Definition timer_reliable (W : Type) `{Driver W} : Prop :=
  forall (ms : Z) (w : W), (page_waitForTimeout ms w).1 = Ok tt.

End Probe.
Export Probe.

(* ===================================================================== *)
(** ** Test configuration (src/config/test-config.ts)                     *)
(* ===================================================================== *)

Module TestConfig.

Record Timeouts : Type := mkTimeouts {
  short : Z; medium : Z; long : Z; pageLoad : Z; apiRequest : Z }.

Record Urls : Type := mkUrls { base : string; mentoring : string }.

Record Viewport : Type := mkViewport { width : Z; height : Z }.

Record Viewports : Type := mkViewports {
  desktop : Viewport; tablet : Viewport; mobile : Viewport }.

Record Retries : Type := mkRetries { ci : Z; local : Z }.

Record Screenshots : Type := mkScreenshots {
  onFailure : bool; onSuccess : bool; fullPage : bool }.

Inductive Quality : Type := low | medium_quality | high.

Record Videos : Type := mkVideos { enabled : bool; quality : Quality }.

(** [interface TestConfig]. *)
Record TestConfig : Type := mkTestConfig {
  timeouts : Timeouts;
  urls : Urls;
  viewports : Viewports;
  browsers : list string;
  retries : Retries;
  screenshots : Screenshots;
  videos : Videos }.

Definition defaultTestConfig : TestConfig := {|
  timeouts := mkTimeouts 5000 15000 30000 30000 10000;
  urls := mkUrls "https://job-portal-user-dev-skx7zw44dq-et.a.run.app" "/mentoring";
  viewports := mkViewports (mkViewport 1920 1080) (mkViewport 1024 768)
                           (mkViewport 375 667);
  browsers := ["chromium"; "firefox"; "webkit"];
  retries := mkRetries 2 1;
  screenshots := mkScreenshots true false true;
  videos := mkVideos true medium_quality |}.

(** [{ ...defaultTestConfig, urls: u }]. *)
Definition with_urls (c : TestConfig) (u : Urls) : TestConfig :=
  mkTestConfig (timeouts c) u (viewports c) (browsers c) (retries c)
               (screenshots c) (videos c).

(** [{ ...c, retries: r }]. *)
Definition with_retries (c : TestConfig) (r : Retries) : TestConfig :=
  mkTestConfig (timeouts c) (urls c) (viewports c) (browsers c) r
               (screenshots c) (videos c).

(** [environmentConfigs], one definition per profile. *)
Definition development : TestConfig :=
  with_urls defaultTestConfig
    (mkUrls "https://job-portal-user-dev-skx7zw44dq-et.a.run.app" "/mentoring").

Definition staging : TestConfig :=
  with_urls defaultTestConfig (mkUrls "https://staging.dealls.com" "/mentoring").

Definition production : TestConfig :=
  with_retries
    (with_urls defaultTestConfig (mkUrls "https://dealls.com" "/mentoring"))
    (mkRetries 3 2).

(** [process.env.TEST_ENV || 'development']: an unset variable and an empty
    one both give the default. *)
Definition environment_of (env : gmap string string) : string :=
  match env !! "TEST_ENV" with
  | Some v => if String.eqb v EmptyString then "development" else v
  | None => "development"
  end.

(** [getTestConfig()], reading [process.env]. *)
Definition getTestConfig (env : gmap string string) : TestConfig :=
  let environment := environment_of env in
  if String.eqb environment "staging" then staging
  else if String.eqb environment "production" then production
  else development.

End TestConfig.

(* ===================================================================== *)
(** ** Observations on traces                                             *)
(* ===================================================================== *)

Module Trace.

(** Every run of [getMentorCount] issues [page.$$('.mentor-card')] exactly
    once; the count samples of a trace are counted by these calls. *)
Definition is_sample (ev : Event) : bool :=
  match ev with
  | EQueryAll selector => String.eqb selector ".mentor-card"
  | _ => false
  end.

Definition mentor_samples (tr : list Event) : nat :=
  length (filter (fun ev => is_sample ev = true) tr).

(** Milliseconds asked of [page.waitForTimeout]. *)
Definition timer_ms (ev : Event) : Z :=
  match ev with
  | EWaitForTimeout ms => ms
  | _ => 0
  end.

Definition timer_total (tr : list Event) : Z :=
  foldr (fun ev acc => timer_ms ev + acc) 0 tr.

(** The events a computation appends, given the state before and after. *)
Definition new_events {W} (s s' : St W) : list Event :=
  drop (length (trace s)) (trace s').

(** The delay between the two count samples of [waitForSearchResults]. *)
Definition settleDelay : Z := 2000.

End Trace.
Export Trace.

(* ===================================================================== *)
(** ** A simulated browser                                                *)
(* ===================================================================== *)

(** A small deterministic driver on which the page objects can be run:
    a page with a fixed set of displayed selectors, a number of mentor
    cards that may grow with time, and one text field that may truncate
    what is typed into it. *)
Module Sim.

Record World : Type := mkWorld {
  clock : Z;                (* elapsed milliseconds *)
  displayed : list string;  (* selectors whose target is displayed *)
  cards : nat;              (* elements matching .mentor-card at time 0 *)
  growing : bool;           (* one more card per elapsed second *)
  title : string;
  url : string;
  body : string;
  input : string;           (* value of the text field *)
  maxlength : option nat    (* the field keeps this many characters *)
}.

Definition advance (ms : Z) (w : World) : World :=
  mkWorld (clock w + ms) (displayed w) (cards w) (growing w) (title w) (url w)
          (body w) (input w) (maxlength w).

Definition set_input (v : string) (w : World) : World :=
  mkWorld (clock w) (displayed w) (cards w) (growing w) (title w) (url w)
          (body w) v (maxlength w).

Fixpoint selector_of (l : Locator) : string :=
  match l with
  | locator selector => selector
  | nth l' _ => selector_of l'
  | first l' => selector_of l'
  end.

Definition shown (l : Locator) (w : World) : bool :=
  existsb (String.eqb (selector_of l)) (displayed w).

Definition TimeoutError : JsError := mkJsError "TimeoutError" "Timeout exceeded".

Definition waitFor (l : Locator) (st : ElState) (timeout : Z) (w : World)
    : Res unit * World :=
  match st, shown l w with
  | Visible, true | Hidden, false => (Ok tt, w)
  | _, _ => (Throw TimeoutError, advance timeout w)
  end.

Definition fill (l : Locator) (text : string) (timeout : Z) (w : World)
    : Res unit * World :=
  let kept := match maxlength w with
              | Some n => String.substring 0 n text
              | None => text
              end in
  (Ok tt, set_input kept w).

Definition queryAll (selector : string) (w : World) : Res nat * World :=
  if String.eqb selector ".mentor-card" then
    (Ok (cards w + (if growing w then Z.to_nat (clock w / 1000) else 0))%nat, w)
  else (Ok 0%nat, w).

#[global] Instance driver : Driver World := {|
  locator_waitFor := waitFor;
  locator_isVisible := fun l w => (Ok (shown l w), w);
  locator_clear := fun l w => (Ok tt, set_input EmptyString w);
  locator_fill := fill;
  locator_inputValue := fun l w => (Ok (input w), w);
  locator_click := fun l timeout force w => (Ok tt, w);
  locator_press := fun l key w => (Ok tt, w);
  locator_toString := fun l => "locator('" +:+ selector_of l +:+ "')";
  page_title := fun w => (Ok (title w), w);
  page_url := url;
  page_waitForLoadState := fun st timeout w => (Ok tt, w);
  page_waitForTimeout := fun ms w => (Ok tt, advance ms w);
  page_textContent := fun selector w => (Ok (Some (body w)), w);
  page_queryAll := queryAll;
  expect_toContain_error := fun actual expected =>
    Error ("expected " +:+ actual +:+ " to contain " +:+ expected)
|}.

(** A page of the mentoring feature with [n] cards and the given displayed
    selectors. *)
Definition mentoring_page (n : nat) (grows : bool) (shown : list string)
    (limit : option nat) : World :=
  mkWorld 0 shown n grows "Dealls Mentoring" "https://dealls.com/mentoring"
          "Mentoring" EmptyString limit.

Definition start (w : World) : St World := mkSt w [].

(** Two search inputs are displayed: the fifth and the seventh candidate. *)
Definition two_inputs : St World :=
  start (mentoring_page 3 false
           [".search-input"; "input[name*=" +:+ q "search" +:+ "]"] None).

(** The number of cards keeps growing. *)
Definition growing_results : St World := start (mentoring_page 1 true [] None).

(** The same page after the first and after the second count sample of
    the stabilization phase, and at the end of the phase. *)
Definition growing_first : St World :=
  Eval vm_compute in ((wait 3000 ;; getMentorCount : M World nat) growing_results).2.

Definition growing_second : St World :=
  Eval vm_compute in ((wait 2000 ;; getMentorCount : M World nat) growing_first).2.

Definition growing_end : St World :=
  Eval vm_compute in (wait 2000 growing_second).2.

(** A steady page with three cards. *)
Definition steady_results : St World := start (mentoring_page 3 false [] None).

(** No card at all, and an "empty state" notice. *)
Definition empty_with_notice : St World :=
  start (mentoring_page 0 false [".empty-state"] None).

(** No card at all, and no notice either. *)
Definition empty_without_notice : St World :=
  start (mentoring_page 0 false [] None).

(** The search field keeps only three characters. *)
Definition truncating_field : St World :=
  start (mentoring_page 3 false [".search-input"] (Some 3%nat)).

(** A build that answers with an error page. *)
Definition not_found_page : St World :=
  start (mkWorld 0 ["h1, [data-testid=" +:+ q "page-title" +:+ "], .page-title, .hero-title"]
                 0 false "404 Not Found" "https://dealls.com/mentoring"
                 "Not Found" EmptyString None).

End Sim.

(* ===================================================================== *)
(** ** Further driver calls                                               *)
(* ===================================================================== *)

Module PlaywrightMore.

(** The driver calls made by the remaining methods of the page objects.
    [Handle] is the type of element handles; [page_queryHandles] is
    [page.$$(selector)] with the handles kept, and [date_now] is
    [Date.now()].  These calls act on the world; the trace of a state
    lists the calls of [Driver] only. *)
Class DriverMore (W : Type) : Type := {
  Handle : Type;
  page_goto : string -> LoadState -> Z -> W -> Res unit * W;
  page_reload : LoadState -> W -> Res unit * W;
  page_screenshot : string -> bool -> W -> Res unit * W;
  page_queryHandles : string -> W -> Res (list Handle) * W;
  handle_textContent : Handle -> W -> Res (option string) * W;
  locator_textContent : Locator -> W -> Res (option string) * W;
  locator_isEnabled : Locator -> W -> Res bool * W;
  locator_scrollIntoViewIfNeeded : Locator -> W -> Res unit * W;
  date_now : W -> Z
}.

(** One of these calls, run on the world of the state. *)
Definition call_more {W A} (f : W -> Res A * W) : M W A :=
  fun s =>
    let (r, w') := f (world s) in
    (r, mkSt w' (trace s)).

End PlaywrightMore.
Export PlaywrightMore.

(* ===================================================================== *)
(** ** [BasePage], remaining methods                                      *)
(* ===================================================================== *)

Module BasePageMore.

(** [process.env.PLAYWRIGHT_BASE_URL || '<default origin>'], the value the
    constructor gives [this.baseURL]. *)
Definition baseURL_of (env : gmap string string) : string :=
  match env !! "PLAYWRIGHT_BASE_URL" with
  | Some v =>
      if String.eqb v EmptyString
      then "https://job-portal-user-dev-skx7zw44dq-et.a.run.app" else v
  | None => "https://job-portal-user-dev-skx7zw44dq-et.a.run.app"
  end.

(** [url.startsWith('http') ? url : `${this.baseURL}${url}`]. *)
Definition fullUrl_of (baseURL url : string) : string :=
  if String.prefix "http" url then url else baseURL +:+ url.

(** [text?.trim() || '']. *)
Definition trimmed_or_empty (text : option string) : string :=
  match text with
  | Some t => trim t
  | None => EmptyString
  end.

(** [`screenshots/${name}-${Date.now()}.png`]. *)
Definition screenshotPath_of (name : string) (now : Z) : string :=
  "screenshots/" +:+ name +:+ "-" +:+ show_Z now +:+ ".png".

Section WithDriver.
Context {W : Type} `{Driver W} `{DriverMore W}.

(** [goto(url, options?)], for a page object whose [baseURL] is given;
    [waitUntil] is [options?.waitUntil]. *)
Definition goto (baseURL url : string) (waitUntil : option LoadState) : M W unit :=
  try_catch
    (let fullUrl := fullUrl_of baseURL url in
     call_more (page_goto fullUrl (default NetworkIdle waitUntil) 30000))
    (fun error => throw (Error ("Failed to navigate to " +:+ url +:+ ": "
                                +:+ error_toString error))).

(** [isElementEnabled(locator)]. *)
Definition isElementEnabled (l : Locator) : M W bool :=
  try_catch (call_more (locator_isEnabled l)) (fun _ => ret false).

(** [getElementText(locator)]. *)
Definition getElementText (l : Locator) : M W string :=
  try_catch
    (waitForElement l None ;;
     text ← call_more (locator_textContent l);
     ret (trimmed_or_empty text))
    (fun error => throw (Error ("Failed to get text from element "
                                +:+ locator_toString l +:+ ": "
                                +:+ error_toString error))).

(** [takeScreenshot(name)]. *)
Definition takeScreenshot (name : string) : M W string :=
  try_catch
    (now ← call_more (fun w => (Ok (date_now w), w));
     let screenshotPath := screenshotPath_of name now in
     call_more (page_screenshot screenshotPath true) ;;
     ret screenshotPath)
    (fun error => throw (Error ("Failed to take screenshot: "
                                +:+ error_toString error))).

(** [scrollToElement(locator)]. *)
Definition scrollToElement (l : Locator) : M W unit :=
  try_catch (call_more (locator_scrollIntoViewIfNeeded l))
    (fun error => throw (Error ("Failed to scroll to element "
                                +:+ locator_toString l +:+ ": "
                                +:+ error_toString error))).

(** [refreshPage()]. *)
Definition refreshPage : M W unit :=
  try_catch (call_more (page_reload NetworkIdle))
    (fun error => throw (Error ("Failed to refresh page: "
                                +:+ error_toString error))).

(** [verifyPageTitle(expectedTitle)]. *)
Definition verifyPageTitle (expectedTitle : string) : M W unit :=
  actualTitle ← getPageTitle;
  if includes actualTitle expectedTitle then ret tt
  else throw (expect_toContain_error actualTitle expectedTitle).

End WithDriver.
End BasePageMore.
Export BasePageMore.

(* ===================================================================== *)
(** ** [MentoringPage], remaining methods                                 *)
(* ===================================================================== *)

Module MentoringPageMore.

(** Locators initialised by the constructor. *)
Definition mentorCards : Locator :=
  locator (".mentor-card, .mentor-item, [data-testid=" +:+ q "mentor-card"
           +:+ "], .card:has(.mentor), .profile-card").

Definition mentorCompanies : Locator :=
  locator (".mentor-company, .company, .organization, [data-testid="
           +:+ q "mentor-company" +:+ "]").

Definition loginButton : Locator :=
  locator ("button:has-text(" +:+ q "Masuk" +:+ "), a:has-text(" +:+ q "Masuk"
           +:+ "), button:has-text(" +:+ q "Login" +:+ "), a:has-text(" +:+ q "Login"
           +:+ "), [data-testid=" +:+ q "login" +:+ "]").

Definition signupButton : Locator :=
  locator ("button:has-text(" +:+ q "Daftar" +:+ "), a:has-text(" +:+ q "Daftar"
           +:+ "), button:has-text(" +:+ q "Sign Up" +:+ "), a:has-text(" +:+ q "Sign Up"
           +:+ "), [data-testid=" +:+ q "signup" +:+ "]").

Definition bookingButtons : Locator :=
  locator (".book-btn, .schedule-btn, button:has-text(" +:+ q "Book"
           +:+ "), button:has-text(" +:+ q "Schedule" +:+ "), [data-testid="
           +:+ q "book-session" +:+ "]").

Definition errorMessage : Locator :=
  locator (".error-message, .alert-error, .error, [data-testid="
           +:+ q "error-message" +:+ "]").

(** [parts.join(', ')]. *)
Fixpoint join_comma (parts : list string) : string :=
  match parts with
  | [] => EmptyString
  | [p] => p
  | p :: rest => p +:+ ", " +:+ join_comma rest
  end.

(** The locator [filterByCategory] builds for a category. *)
Definition categoryButton (category : string) : Locator :=
  locator (join_comma
             ["button:has-text(" +:+ q category +:+ ")";
              "[data-category=" +:+ q category +:+ "]";
              ".category:has-text(" +:+ q category +:+ ")";
              ".filter:has-text(" +:+ q category +:+ ")"]).

(** [!category || category.trim().length === 0]. *)
Definition category_is_blank (category : string) : bool :=
  String.eqb category EmptyString || (String.length (trim category) =? 0)%nat.

Definition nameSelectors : list string :=
  ["h1, h2, h3, h4, h5, h6";
   ".name, .mentor-name, .profile-name";
   "[class*=" +:+ q "name" +:+ "], [class*=" +:+ q "title" +:+ "]";
   "strong, b, .font-bold"].

(** The test [getMentorNames] applies to the text of an element: the
    trimmed text when it is kept as a name, nothing otherwise. *)
Definition name_of_text (text : option string) : option string :=
  match text with
  | None => None
  | Some text =>
      if negb (String.eqb text EmptyString)
         && (0 <? String.length (trim text))%nat
         && (String.length (trim text) <? 100)%nat
      then
        let cleanText := trim text in
        if negb (includes (toLowerCase cleanText) "mentoring")
           && negb (includes (toLowerCase cleanText) "karir")
           && negb (includes (toLowerCase cleanText) "tingkatkan")
           && (split_space_length cleanText <=? 4)%nat
        then Some cleanText
        else None
      else None
  end.

(** [[...new Set(names)]]: duplicates are dropped, first occurrences stay
    in order.  [seen] holds the values met so far. *)
Fixpoint unique_from (seen names : list string) : list string :=
  match names with
  | [] => []
  | n :: rest =>
      if existsb (String.eqb n) seen then unique_from seen rest
      else n :: unique_from (n :: seen) rest
  end.

Definition unique (names : list string) : list string := unique_from [] names.

(** [a.slice(0, n)] for an integer [n]; a negative [n] counts from the end. *)
Definition slice0 {A} (n : Z) (a : list A) : list A :=
  if 0 <=? n then take (Z.to_nat n) a
  else take (length a - Z.to_nat (- n)) a.

(** [Math.min(elements.length, maxCount)] as a number of loop iterations. *)
Definition iterations (len : nat) (maxCount : Z) : nat :=
  Z.to_nat (Z.min (Z.of_nat len) maxCount).

Section WithDriver.
Context {W : Type} `{Driver W} `{DriverMore W}.

(** [navigateToMentoring()]. *)
Definition navigateToMentoring (baseURL : string) : M W unit :=
  goto baseURL "/mentoring" None ;;
  waitForPageLoad None ;;
  verifyPageLoaded.

(** [filterByCategory(category)]. *)
Definition filterByCategory (category : string) : M W unit :=
  if category_is_blank category then
    throw (Error "Category cannot be empty")
  else
    visible ← isElementVisible (categoryButton category) None;
    if negb visible then
      throw (Error ("Category filter " +:+ dq +:+ category +:+ dq
                    +:+ " not found on the page"))
    else
      clickElement (categoryButton category) None ;;
      waitForSearchResults.

(** The inner loop of [getMentorNames] over the elements still to visit;
    [names] is the array built so far.  Each iteration sits in a
    [try]/[catch]; the loop breaks once [names] has [maxCount] entries. *)
Fixpoint getMentorNames_elements (elements : list Handle) (maxCount : Z)
    (names : list string) : M W (list string) :=
  match elements with
  | [] => ret names
  | element :: rest =>
      kept ← try_catch
               (text ← call_more (handle_textContent element);
                ret (name_of_text text))
               (fun _ => ret None);
      match kept with
      | Some cleanText =>
          let names := names ++ [cleanText] in
          if maxCount <=? Z.of_nat (length names) then ret names
          else getMentorNames_elements rest maxCount names
      | None => getMentorNames_elements rest maxCount names
      end
  end.

(** The outer loop of [getMentorNames] over the name selectors. *)
Fixpoint getMentorNames_selectors (selectors : list string) (maxCount : Z)
    (names : list string) : M W (list string) :=
  match selectors with
  | [] => ret names
  | selector :: rest =>
      elements ← call_more (page_queryHandles selector);
      names ← getMentorNames_elements
                (take (iterations (length elements) maxCount) elements)
                maxCount names;
      if maxCount <=? Z.of_nat (length names) then ret names
      else getMentorNames_selectors rest maxCount names
  end.

(** [getMentorNames(maxCount = 10)]. *)
Definition getMentorNames (maxCount : option Z) : M W (list string) :=
  let maxCount := default 10 maxCount in
  names ← getMentorNames_selectors nameSelectors maxCount [];
  let uniqueNames := unique names in
  ret (slice0 maxCount uniqueNames).

(** The loop of [getMentorCompanies] over the indices still to visit. *)
Fixpoint getMentorCompanies_loop (indices : list nat) (companies : list string)
    : M W (list string) :=
  match indices with
  | [] => ret companies
  | i :: rest =>
      companies ← try_catch
                    (let companyElement := nth mentorCompanies i in
                     visible ← isElementVisible companyElement (Some 2000);
                     if visible : bool then
                       company ← getElementText companyElement;
                       if negb (String.eqb company EmptyString)
                          && (0 <? String.length company)%nat
                       then ret (companies ++ [company])
                       else ret companies
                     else ret companies)
                    (fun _ => ret companies);
      getMentorCompanies_loop rest companies
  end.

(** [getMentorCompanies(maxCount = 5)]. *)
Definition getMentorCompanies (maxCount : option Z) : M W (list string) :=
  let maxCount := default 5 maxCount in
  mentorCount ← getMentorCount;
  if (mentorCount =? 0)%nat then ret []
  else
    let countToProcess := iterations mentorCount maxCount in
    getMentorCompanies_loop (seq 0 countToProcess) [].

(** [clickMentorCard(index = 0)], for a 0-based index. *)
Definition clickMentorCard (index : option nat) : M W unit :=
  let index := default 0%nat index in
  mentorCount ← getMentorCount;
  if (mentorCount =? 0)%nat then
    throw (Error "No mentor cards available to click")
  else if (mentorCount <=? index)%nat then
    throw (Error ("Mentor card index " +:+ show_nat index
                  +:+ " is out of range. Only " +:+ show_nat mentorCount
                  +:+ " cards available."))
  else
    let mentorCard := nth mentorCards index in
    scrollToElement mentorCard ;;
    clickElement mentorCard None ;;
    wait 2000.

(** [bookSessionWithFirstMentor()]. *)
Definition bookSessionWithFirstMentor : M W unit :=
  mentorCount ← getMentorCount;
  if (mentorCount =? 0)%nat then
    throw (Error "No mentors available to book session with")
  else
    clickMentorCard (Some 0%nat) ;;
    visible ← isElementVisible (first bookingButtons) (Some 5000);
    if visible : bool then
      clickElement (first bookingButtons) None ;;
      wait 3000
    else ret tt.

(** [attemptLogin()]. *)
Definition attemptLogin : M W unit :=
  visible ← isElementVisible loginButton None;
  if visible : bool then
    clickElement loginButton None ;;
    waitForPageLoad None
  else throw (Error "Login button not found on the page").

(** [attemptSignup()]. *)
Definition attemptSignup : M W unit :=
  visible ← isElementVisible signupButton None;
  if visible : bool then
    clickElement signupButton None ;;
    waitForPageLoad None
  else throw (Error "Signup button not found on the page").

(** [hasErrorMessages()]. *)
Definition hasErrorMessages : M W bool :=
  isElementVisible errorMessage None.

(** [getErrorMessage()]. *)
Definition getErrorMessage : M W string :=
  shown ← hasErrorMessages;
  if shown : bool then getElementText errorMessage
  else ret EmptyString.

End WithDriver.
End MentoringPageMore.
Export MentoringPageMore.

(* ===================================================================== *)
(** ** A simulated browser with element texts                             *)
(* ===================================================================== *)

(** The simulated browser of [Sim], extended with a clock for [Date.now()]
    and with the texts of the elements that [page.$$] finds for the
    heading selector; a handle is the outcome of reading its text. *)
Module SimMore.

Record World : Type := mkWorld {
  page : Sim.World;
  now : Z;
  headings : list (Res (option string));
  company : option string
}.

Definition on_page {A} (f : Sim.World -> Res A * Sim.World) (w : World)
    : Res A * World :=
  let (r, p) := f (page w) in
  (r, mkWorld p (now w) (headings w) (company w)).

#[global] Instance driver : Driver World := {|
  locator_waitFor := fun l st timeout => on_page (Sim.waitFor l st timeout);
  locator_isVisible := fun l => on_page (fun p => (Ok (Sim.shown l p), p));
  locator_clear := fun l => on_page (fun p => (Ok tt, Sim.set_input EmptyString p));
  locator_fill := fun l text timeout => on_page (Sim.fill l text timeout);
  locator_inputValue := fun l => on_page (fun p => (Ok (Sim.input p), p));
  locator_click := fun l timeout force w => (Ok tt, w);
  locator_press := fun l key w => (Ok tt, w);
  locator_toString := fun l => "locator('" +:+ Sim.selector_of l +:+ "')";
  page_title := fun w => (Ok (Sim.title (page w)), w);
  page_url := fun w => Sim.url (page w);
  page_waitForLoadState := fun st timeout w => (Ok tt, w);
  page_waitForTimeout := fun ms => on_page (fun p => (Ok tt, Sim.advance ms p));
  page_textContent := fun selector w => (Ok (Some (Sim.body (page w))), w);
  page_queryAll := fun selector => on_page (Sim.queryAll selector);
  expect_toContain_error := fun actual expected =>
    Error ("expected " +:+ actual +:+ " to contain " +:+ expected)
|}.

#[global] Instance driver_more : DriverMore World := {|
  Handle := Res (option string);
  page_goto := fun url waitUntil timeout w => (Ok tt, w);
  page_reload := fun waitUntil w => (Ok tt, w);
  page_screenshot := fun path fullPage w => (Ok tt, w);
  page_queryHandles := fun selector w =>
    (Ok (if String.eqb selector "h1, h2, h3, h4, h5, h6" then headings w else []), w);
  handle_textContent := fun h w => (h, w);
  locator_textContent := fun l w => (Ok (company w), w);
  locator_isEnabled := fun l w => (Ok (Sim.shown l (page w)), w);
  locator_scrollIntoViewIfNeeded := fun l w => (Ok tt, w);
  date_now := now
|}.

Definition start (p : St Sim.World) (texts : list (Res (option string)))
    (company : option string) : St World :=
  mkSt (mkWorld (world p) 1700000000000 texts company) [].

(** Headings of a mentoring page: a banner, two mentors (one of them
    twice), an element whose text cannot be read, and a long tagline. *)
Definition with_headings : St World :=
  start Sim.steady_results
    [Ok (Some "Dealls Mentoring"); Ok (Some "  Budi Santoso ");
     Throw Sim.TimeoutError; Ok (Some "Siti Rahma"); Ok (Some "Budi Santoso");
     Ok None; Ok (Some "Tingkatkan karir bersama para ahli industri")]
    (Some "  Dealls  ").

(** A page on which the company elements are displayed. *)
Definition with_companies : St World :=
  start (mkSt (Sim.mentoring_page 3 false
                 [".mentor-company, .company, .organization, [data-testid="
                  +:+ q "mentor-company" +:+ "]"] None) [])
    [] (Some "  Dealls  ").

End SimMore.

(* ===================================================================== *)
(** ** A closed page                                                      *)
(* ===================================================================== *)

(** The driver of a page that has been closed: every awaited call, the
    timer included, rejects with the same error. *)
Module Closed.

Definition TargetClosedError : JsError :=
  mkJsError "Error" "Target page, context or browser has been closed".

Definition rejected {A} (w : unit) : Res A * unit := (Throw TargetClosedError, w).

Definition driver : Driver unit := {|
  locator_waitFor := fun l st timeout => rejected;
  locator_isVisible := fun l => rejected;
  locator_clear := fun l => rejected;
  locator_fill := fun l text timeout => rejected;
  locator_inputValue := fun l => rejected;
  locator_click := fun l timeout force => rejected;
  locator_press := fun l key => rejected;
  locator_toString := fun l => "locator('" +:+ Sim.selector_of l +:+ "')";
  page_title := rejected;
  page_url := fun w => "about:blank";
  page_waitForLoadState := fun st timeout => rejected;
  page_waitForTimeout := fun ms => rejected;
  page_textContent := fun selector => rejected;
  page_queryAll := fun selector => rejected;
  expect_toContain_error := fun actual expected =>
    Error ("expected " +:+ actual +:+ " to contain " +:+ expected)
|}.

Definition start : St unit := mkSt tt [].

End Closed.

(** Vocabulary for statements about mentor names. *)
Module Names.

(** What [getMentorNames] accepts as a name: a trimmed text of 1 to 99
    characters and at most four space-separated words that mentions none
    of the words of the page's banner. *)
Definition name_like (n : string) : Prop :=
  trim n = n
  /\ (0 < String.length n < 100)%nat
  /\ (split_space_length n <= 4)%nat
  /\ includes (toLowerCase n) "mentoring" = false
  /\ includes (toLowerCase n) "karir" = false
  /\ includes (toLowerCase n) "tingkatkan" = false.

End Names.
Export Names.

(* ===================================================================== *)
(** * Properties                                                          *)
(* ===================================================================== *)

(** ** Strings *)

Module JsFacts.

Lemma trimStart_all_space (s : string) :
  all_space s = true -> trimStart s = EmptyString.
Proof.
  induction s as [|c s IH]; simpl; [reflexivity|].
  intros [Hc Hs]%andb_prop. rewrite Hc. auto.
Qed.

Lemma trim_all_space (s : string) :
  all_space s = true -> trim s = EmptyString.
Proof.
  intros Hs. unfold trim. rewrite trimStart_all_space by assumption. reflexivity.
Qed.

Lemma keyword_is_blank_all_space (keyword : string) :
  all_space keyword = true -> keyword_is_blank keyword = true.
Proof.
  intros Hs. unfold keyword_is_blank.
  rewrite trim_all_space by assumption. simpl. apply orb_true_r.
Qed.

Lemma lower_char_upper (c : ascii) :
  is_upper c -> lower_char c = ascii_of_nat (nat_of_ascii c + 32).
Proof.
  intros [Hlo Hhi]. unfold lower_char.
  destruct (Nat.leb_spec 65 (nat_of_ascii c)); [|lia].
  destruct (Nat.leb_spec (nat_of_ascii c) 90); [|lia].
  reflexivity.
Qed.

Lemma lower_char_not_upper (c : ascii) :
  ~ is_upper c -> lower_char c = c.
Proof.
  intros Hn. unfold lower_char, is_upper in *.
  destruct (Nat.leb_spec 65 (nat_of_ascii c));
    destruct (Nat.leb_spec (nat_of_ascii c) 90); simpl; try reflexivity.
  lia.
Qed.

(** An upper-case letter and the letter 32 code points above it have the
    same lower case. *)
Lemma lower_char_shift (c d : ascii) :
  is_upper c -> nat_of_ascii d = (nat_of_ascii c + 32)%nat ->
  lower_char c = lower_char d.
Proof.
  intros Hc Hd.
  rewrite (lower_char_upper c Hc), <- Hd, ascii_nat_embedding.
  symmetry. apply lower_char_not_upper.
  unfold is_upper in *. lia.
Qed.

Lemma lower_char_same_letter (c d : ascii) :
  same_letter c d -> lower_char c = lower_char d.
Proof.
  intros [-> | [[Hc Hd] | [Hd Hc]]].
  - reflexivity.
  - apply lower_char_shift; assumption.
  - symmetry. apply lower_char_shift; assumption.
Qed.

Lemma toLowerCase_same_text (s t : string) :
  same_text s t -> toLowerCase s = toLowerCase t.
Proof.
  revert t. induction s as [|c s IH]; intros [|d t]; simpl; try tauto.
  intros [Hcd Hst]. f_equal; [apply lower_char_same_letter | apply IH]; assumption.
Qed.

Lemma toLowerCase_app (s t : string) :
  toLowerCase (s +:+ t) = toLowerCase s +:+ toLowerCase t.
Proof.
  induction s as [|c s IH]; simpl; [reflexivity | now rewrite IH].
Qed.

Lemma prefix_app (p s : string) : String.prefix p (p +:+ s) = true.
Proof.
  induction p as [|c p IH]; simpl.
  - now destruct s.
  - destruct (ascii_dec c c); [assumption | congruence].
Qed.

Lemma prefix_inv (p s : string) :
  String.prefix p s = true -> exists post, s = p +:+ post.
Proof.
  revert s. induction p as [|c p IH]; intros s Hp.
  - exists s. reflexivity.
  - destruct s as [|d s]; simpl in Hp; [discriminate|].
    destruct (ascii_dec c d) as [->|]; [|discriminate].
    destruct (IH s Hp) as [post ->]. exists post. reflexivity.
Qed.

Lemma includes_unfold (s p : string) :
  includes s p =
  if String.prefix p s then true
  else match s with
       | EmptyString => false
       | String _ s' => includes s' p
       end.
Proof. destruct s; reflexivity. Qed.

(** [includes] finds every occurrence. *)
Lemma includes_app (pre p post : string) :
  includes (pre +:+ p +:+ post) p = true.
Proof.
  induction pre as [|c pre IH].
  - rewrite includes_unfold.
    change (EmptyString +:+ p +:+ post) with (p +:+ post).
    now rewrite prefix_app.
  - rewrite includes_unfold.
    destruct (String.prefix _ _); [reflexivity | exact IH].
Qed.

(** [includes] only reports occurrences. *)
Lemma includes_inv (s p : string) :
  includes s p = true -> exists pre post, s = pre +:+ p +:+ post.
Proof.
  induction s as [|c s IH]; rewrite includes_unfold.
  - destruct (String.prefix p EmptyString) eqn:E; [|discriminate].
    intros _. destruct (prefix_inv _ _ E) as [post ->]. exists EmptyString, post.
    reflexivity.
  - destruct (String.prefix p (String c s)) eqn:E.
    + intros _. destruct (prefix_inv _ _ E) as [post ->]. exists EmptyString, post.
      reflexivity.
    + intros Hi. destruct (IH Hi) as (pre & post & ->).
      exists (String c pre), post. reflexivity.
Qed.

End JsFacts.

(** ** [BasePage] *)

(** Unfolds the monad operations, so that a method applied to a state
    becomes a cascade of matches on driver outcomes. *)
Ltac run :=
  unfold mbind, mret, M_bind, M_ret, bind, ret, throw, try_catch, call, call_total in *;
  cbn beta iota in *.

Module BasePageFacts.
Section WithDriver.
Context {W : Type} `{Driver W}.

(** One run of the probe: a single [locator.waitFor], whose outcome is
    turned into a boolean. *)
Lemma isElementVisible_run (l : Locator) (timeout : option Z) (s : St W) :
  let t := default 5000 timeout in
  let r := locator_waitFor l Visible t (world s) in
  isElementVisible l timeout s
  = (Ok (is_ok r.1), mkSt r.2 (trace s ++ [EWaitFor l Visible t])).
Proof.
  unfold isElementVisible. run.
  destruct (locator_waitFor l Visible (default 5000 timeout) (world s)) as [[[]|e] w'];
    reflexivity.
Qed.

Lemma isElementVisible_total (l : Locator) (timeout : option Z) (s : St W) :
  exists b s',
    isElementVisible l timeout s = (Ok b, s')
    /\ trace s' = trace s ++ [EWaitFor l Visible (default 5000 timeout)].
Proof.
  rewrite isElementVisible_run. eauto.
Qed.

(** C8. The visibility probe never throws: for every locator, timeout and
    state, [isElementVisible] returns a boolean, [true] when
    [locator.waitFor] succeeded within the timeout and [false] when it
    threw, whatever the error. *)
Theorem isElementVisible_never_throws (l : Locator) (timeout : option Z) (s : St W) :
  let r := locator_waitFor l Visible (default 5000 timeout) (world s) in
  (isElementVisible l timeout s).1
  = Ok (match r.1 with Ok _ => true | Throw _ => false end).
Proof.
  cbn zeta. rewrite isElementVisible_run. reflexivity.
Qed.

(** C5. [typeText] reads the field back after filling it.  When the fill
    went through and the value read back differs from the text, the call
    fails with the verification error (wrapped by the method's [catch]);
    and whenever the call returns normally, the value read back in its
    last step was exactly the text. *)
Theorem typeText_verifies_readback (l : Locator) (text : string)
    (options : option TypeOptions) (s : St W) :
  (forall s1 v s',
      typeText_fill l text options s = (Ok tt, s1) ->
      call (EInputValue l) (locator_inputValue l) s1 = (Ok v, s') ->
      v <> text ->
      typeText l text options s
      = (Throw (Error ("Failed to type text " +:+ dq +:+ text +:+ dq
                       +:+ " into " +:+ locator_toString l +:+ ": "
                       +:+ error_toString (verification_failed text v))), s'))
  /\ (forall s',
      typeText l text options s = (Ok tt, s') ->
      exists s1,
        typeText_fill l text options s = (Ok tt, s1)
        /\ call (EInputValue l) (locator_inputValue l) s1 = (Ok text, s')).
Proof.
  split.
  - intros s1 v s' Hfill Hread Hne.
    unfold typeText, typeText_body, try_catch, mbind, M_bind, bind.
    rewrite Hfill, Hread.
    destruct (String.eqb_spec v text) as [->|_]; [congruence|]. reflexivity.
  - intros s'.
    unfold typeText, typeText_body, try_catch, mbind, M_bind, bind.
    destruct (typeText_fill l text options s) as [[[]|e] s1]; [|discriminate].
    destruct (call (EInputValue l) (locator_inputValue l) s1) as [[v|e] s2] eqn:Hread;
      [|discriminate].
    destruct (String.eqb_spec v text) as [->|_]; simpl; [|discriminate].
    intros [= <-]. exists s1. split; [reflexivity | exact Hread].
Qed.

End WithDriver.

(** The read-back check at work: a field that keeps three characters makes
    the call fail, and on a plain field the value read back is the text. *)
Lemma typeText_verifies_readback_witness :
  (typeText (locator ".search-input") "abcdef" None Sim.truncating_field).1
  = Throw (Error ("Failed to type text " +:+ dq +:+ "abcdef" +:+ dq
                  +:+ " into locator('.search-input'): Error: Text verification failed. Expected: "
                  +:+ dq +:+ "abcdef" +:+ dq +:+ ", Actual: " +:+ dq +:+ "abc" +:+ dq))
  /\ exists s1 s',
       typeText_fill (locator ".search-input") "abc" None Sim.two_inputs = (Ok tt, s1)
       /\ call (EInputValue (locator ".search-input"))
               (locator_inputValue (locator ".search-input")) s1 = (Ok "abc", s').
Proof.
  split.
  - destruct (typeText_verifies_readback (locator ".search-input") "abcdef"
                None Sim.truncating_field) as [Hthrow _].
    specialize (Hthrow _ "abc" _ eq_refl eq_refl).
    rewrite Hthrow; [reflexivity | discriminate].
  - destruct (typeText_verifies_readback (locator ".search-input") "abc"
                None Sim.two_inputs) as [_ Hok].
    destruct (Hok _ eq_refl) as (s1 & Hfill & Hread).
    exists s1. eexists. split; [exact Hfill | exact Hread].
Defined.

End BasePageFacts.

(** ** Traces *)

Module TraceFacts.

Lemma mentor_samples_app (tr1 tr2 : list Event) :
  mentor_samples (tr1 ++ tr2) = (mentor_samples tr1 + mentor_samples tr2)%nat.
Proof. unfold mentor_samples. now rewrite filter_app, length_app. Qed.

Lemma timer_total_app (tr1 tr2 : list Event) :
  timer_total (tr1 ++ tr2) = timer_total tr1 + timer_total tr2.
Proof.
  unfold timer_total. induction tr1 as [|ev tr1 IH]; simpl; [reflexivity | lia].
Qed.

Lemma new_events_app {W} (s s' : St W) (evs : list Event) :
  trace s' = trace s ++ evs -> new_events s s' = evs.
Proof. unfold new_events. intros ->. apply drop_app_length. Qed.

Lemma mentor_samples_queries (selectors : list string) :
  mentor_samples (EQueryAll <$> selectors)
  = length (filter (fun sel => String.eqb sel ".mentor-card" = true) selectors).
Proof.
  unfold mentor_samples. induction selectors as [|sel rest IH]; [reflexivity|].
  rewrite fmap_cons, !filter_cons. simpl is_sample.
  destruct (decide (String.eqb sel ".mentor-card" = true)); simpl; now rewrite IH.
Qed.

Lemma timer_total_queries (selectors : list string) :
  timer_total (EQueryAll <$> selectors) = 0.
Proof. induction selectors; [reflexivity | assumption]. Qed.

End TraceFacts.

(** ** [MentoringPage]: counting cards *)

Module CountFacts.
Import TraceFacts BasePageFacts.
Section WithDriver.
Context {W : Type} `{Driver W}.

Lemma wait_spec (ms : Z) (s : St W) :
  wait ms s
  = ((page_waitForTimeout ms (world s)).1,
     mkSt (page_waitForTimeout ms (world s)).2 (trace s ++ [EWaitForTimeout ms])).
Proof.
  unfold wait, call. now destruct (page_waitForTimeout ms (world s)).
Qed.

Lemma wait_trace (ms : Z) (s : St W) :
  trace (wait ms s).2 = trace s ++ [EWaitForTimeout ms].
Proof. now rewrite wait_spec. Qed.

(** A wait that returned, as an equation. *)
Lemma wait_ok (ms : Z) (s : St W) :
  (wait ms s).1 = Ok tt -> wait ms s = (Ok tt, (wait ms s).2).
Proof. destruct (wait ms s) as [r s1]. simpl. now intros ->. Qed.

Lemma queryAll_each_trace (selectors : list string) (s : St W) :
  trace (queryAll_each selectors s).2 = trace s ++ (EQueryAll <$> selectors).
Proof.
  revert s. induction selectors as [|sel rest IH]; intros s; simpl.
  - now rewrite app_nil_r.
  - unfold call. destruct (page_queryAll sel (world s)) as [r w'].
    specialize (IH (mkSt w' (trace s ++ [EQueryAll sel]))).
    destruct (queryAll_each rest _) as [rs s2]. simpl in *.
    now rewrite IH, <- app_assoc.
Qed.

(** The counting loop keeps the running maximum of what [page.$$] reports. *)
Lemma getMentorCount_scan_spec (selectors : list string) (maxCount : nat)
    (workingSelector : string) (s : St W) :
  exists workingSelector',
    getMentorCount_scan selectors maxCount workingSelector s
    = (Ok (Nat.max maxCount (max_list (count_of <$> (queryAll_each selectors s).1)),
           workingSelector'),
       (queryAll_each selectors s).2).
Proof.
  revert maxCount workingSelector s.
  induction selectors as [|sel rest IH]; intros maxCount workingSelector s.
  - exists workingSelector. simpl. run. now rewrite Nat.max_0_r.
  - simpl. run.
    destruct (page_queryAll sel (world s)) as [[n|e] w'].
    + destruct (Nat.ltb_spec maxCount n) as [Hlt|Hge]; cbn beta iota; cbn [fst snd].
      * destruct (IH n sel (mkSt w' (trace s ++ [EQueryAll sel]))) as [ws' ->].
        destruct (queryAll_each rest _) as [rs s2]. exists ws'. simpl.
        assert (forall x, Nat.max maxCount (Nat.max n x) = Nat.max n x) as -> by lia.
        reflexivity.
      * destruct (IH maxCount workingSelector (mkSt w' (trace s ++ [EQueryAll sel])))
          as [ws' ->].
        destruct (queryAll_each rest _) as [rs s2]. exists ws'. simpl.
        assert (forall x, Nat.max maxCount (Nat.max n x) = Nat.max maxCount x) as -> by lia.
        reflexivity.
    + cbn [fst snd].
      destruct (IH maxCount workingSelector (mkSt w' (trace s ++ [EQueryAll sel])))
        as [ws' ->].
      destruct (queryAll_each rest _) as [rs s2]. exists ws'. reflexivity.
Qed.

(** The "no results" loop never throws, and only probes. *)
Lemma getMentorCount_noResults_total (selectors : list string) (s : St W) :
  exists b s' evs,
    getMentorCount_noResults selectors s = (Ok b, s')
    /\ trace s' = trace s ++ evs
    /\ mentor_samples evs = 0%nat /\ timer_total evs = 0.
Proof.
  revert s. induction selectors as [|sel rest IH]; intros s.
  - exists false, s, []. simpl. rewrite app_nil_r. auto.
  - simpl. unfold mbind, M_bind, bind.
    rewrite isElementVisible_run. cbn zeta.
    destruct (is_ok _).
    + eexists true, _, [_]. repeat split; reflexivity.
    + destruct (IH (mkSt (locator_waitFor (locator sel) Visible (default 5000 None) (world s)).2
                         (trace s ++ [EWaitFor (locator sel) Visible (default 5000 None)])))
        as (b & s' & evs & -> & Htr & Hsm & Htm).
      exists b, s', (EWaitFor (locator sel) Visible (default 5000 None) :: evs).
      repeat split.
      * rewrite Htr. simpl. now rewrite <- app_assoc.
      * exact Hsm.
      * exact Htm.
Qed.

(** The "no results" loop stops at the first indicator that is visible. *)
Lemma getMentorCount_noResults_first (pre post : list string) (selector : string)
    (s s1 s2 : St W) :
  all_hidden 5000 pre s s1 ->
  isElementVisible (locator selector) None s1 = (Ok true, s2) ->
  getMentorCount_noResults (pre ++ selector :: post) s = (Ok true, s2).
Proof.
  intros Hpre Hvis. induction Hpre as [s|sel rest s sa sb Hsel _ IH].
  - simpl. unfold mbind, M_bind, bind. now rewrite Hvis.
  - simpl. unfold mbind, M_bind, bind.
    change (isElementVisible (locator sel) None s)
      with (isElementVisible (locator sel) (Some 5000) s).
    rewrite Hsel. apply IH, Hvis.
Qed.

(** [getMentorCount] as a function of what the driver reports, once its
    initial pause has returned. *)
Lemma getMentorCount_spec (s : St W) :
  (wait 2000 s).1 = Ok tt ->
  let obs := queryAll_each cardSelectors (wait 2000 s).2 in
  let m := max_list (count_of <$> obs.1) in
  getMentorCount s
  = if (0 <? m)%nat then (Ok m, obs.2)
    else (Ok 0%nat, (getMentorCount_noResults noResultsSelectors obs.2).2).
Proof.
  intros Hwait obs m. unfold getMentorCount.
  unfold mbind at 1. unfold M_bind, bind at 1. rewrite (wait_ok _ _ Hwait).
  unfold mbind at 1. unfold bind at 1.
  destruct (getMentorCount_scan_spec cardSelectors 0 EmptyString (wait 2000 s).2)
    as [ws' ->].
  change (queryAll_each cardSelectors _) with obs. cbn [fst snd Nat.max]. fold m.
  destruct (Nat.ltb_spec 0 m) as [Hpos|Hzero]; [reflexivity|].
  unfold mbind, bind.
  destruct (getMentorCount_noResults_total noResultsSelectors obs.2)
    as (b & s' & evs & -> & _).
  assert (m = 0%nat) as -> by lia. now destruct b.
Qed.

(** When the initial pause rejects, [getMentorCount] passes the error on. *)
Lemma getMentorCount_timer_throws (s : St W) (e : JsError) :
  (wait 2000 s).1 = Throw e ->
  getMentorCount s = (Throw e, (wait 2000 s).2).
Proof.
  intros Hwait. unfold getMentorCount, mbind, M_bind, bind.
  destruct (wait 2000 s) as [r s1]. simpl in Hwait. now subst r.
Qed.

(** When no indicator is visible the "no results" loop runs to its end. *)
Lemma getMentorCount_noResults_none (selectors : list string) (s s' : St W) :
  all_hidden 5000 selectors s s' ->
  getMentorCount_noResults selectors s = (Ok false, s').
Proof.
  induction 1 as [s|sel rest s sa sb Hsel _ IH]; [reflexivity|].
  simpl. unfold mbind, M_bind, bind.
  change (isElementVisible (locator sel) None s)
    with (isElementVisible (locator sel) (Some 5000) s).
  now rewrite Hsel.
Qed.

Lemma max_list_zero (l : list (Res nat)) :
  Forall (fun r => count_of r = 0%nat) l -> max_list (count_of <$> l) = 0%nat.
Proof.
  induction 1 as [|r l Hr _ IH]; [reflexivity|].
  rewrite fmap_cons. simpl. now rewrite Hr, IH.
Qed.

(** C10. Once its initial pause has returned, [getMentorCount] returns the
    largest number of elements that [page.$$] reports over the card
    selectors, all of which are asked (a selector whose query throws
    counts for nothing); and when every selector reports zero elements it
    returns [0] without throwing, also when the probes of all "no
    results" indicators find nothing. *)
Theorem getMentorCount_is_maximum (s : St W) :
  (wait 2000 s).1 = Ok tt ->
  let obs := queryAll_each cardSelectors (wait 2000 s).2 in
  (getMentorCount s).1 = Ok (max_list (count_of <$> obs.1))
  /\ (forall s',
        Forall (fun r => count_of r = 0%nat) obs.1 ->
        all_hidden 5000 noResultsSelectors obs.2 s' ->
        getMentorCount s = (Ok 0%nat, s')).
Proof.
  intros Hwait obs. pose proof (getMentorCount_spec s Hwait) as Hspec.
  cbn zeta in Hspec. fold obs in Hspec. split.
  - rewrite Hspec. destruct (Nat.ltb_spec 0 (max_list (count_of <$> obs.1))) as [|Hz];
      [reflexivity|].
    simpl. f_equal. lia.
  - intros s' Hzero Hnone. rewrite Hspec, (max_list_zero _ Hzero).
    simpl Nat.ltb. cbn iota.
    now rewrite (getMentorCount_noResults_none _ _ _ Hnone).
Qed.

(** C7. On a page where, after the initial pause has returned, every card
    selector reports zero elements and
    where a "no results" indicator is visible (the indicators before it in
    the list having been probed without success), [getMentorCount]
    returns [0] and does not throw; it stops at the visible indicator. *)
Theorem getMentorCount_zero_with_notice (s s1 s' : St W)
    (pre post : list string) (selector : string) :
  (wait 2000 s).1 = Ok tt ->
  let obs := queryAll_each cardSelectors (wait 2000 s).2 in
  Forall (fun r => count_of r = 0%nat) obs.1 ->
  noResultsSelectors = pre ++ selector :: post ->
  all_hidden 5000 pre obs.2 s1 ->
  isElementVisible (locator selector) None s1 = (Ok true, s') ->
  getMentorCount s = (Ok 0%nat, s').
Proof.
  intros Hwait obs Hzero Hsplit Hpre Hvis.
  pose proof (getMentorCount_spec s Hwait) as Hspec. cbn zeta in Hspec.
  fold obs in Hspec.
  rewrite Hspec, (max_list_zero _ Hzero), Hsplit. simpl Nat.ltb. cbn iota.
  now rewrite (getMentorCount_noResults_first pre post selector _ _ _ Hpre Hvis).
Qed.

(** Every run of [getMentorCount] asks the timer for two seconds.  When
    the pause returns, the run returns a count and has taken one sample;
    when the pause rejects, the run throws that error and has taken none. *)
Lemma getMentorCount_run (s : St W) :
  exists evs,
    trace (getMentorCount s).2 = trace s ++ evs
    /\ timer_total evs = 2000
    /\ match (wait 2000 s).1 with
       | Ok _ => (exists n, (getMentorCount s).1 = Ok n) /\ mentor_samples evs = 1%nat
       | Throw e => (getMentorCount s).1 = Throw e /\ mentor_samples evs = 0%nat
       end.
Proof.
  destruct (wait 2000 s).1 as [[]|e] eqn:Hwait.
  - pose proof (getMentorCount_spec s Hwait) as Hspec. cbn zeta in Hspec.
    set (obs := queryAll_each cardSelectors (wait 2000 s).2) in *.
    assert (trace obs.2 = trace s ++ (EWaitForTimeout 2000 :: (EQueryAll <$> cardSelectors)))
      as Hobs.
    { unfold obs. rewrite queryAll_each_trace, wait_trace. now rewrite <- app_assoc. }
    rewrite Hspec. destruct (0 <? max_list (count_of <$> obs.1))%nat.
    + eexists. split; [exact Hobs|]. split; [reflexivity|]. split; [eauto | reflexivity].
    + destruct (getMentorCount_noResults_total noResultsSelectors obs.2)
        as (b & s' & evs & Hnr & Htr & Hsm & Htm).
      rewrite Hnr. cbn [fst snd].
      exists ((EWaitForTimeout 2000 :: (EQueryAll <$> cardSelectors)) ++ evs).
      split; [rewrite Htr, Hobs; now rewrite <- app_assoc|].
      rewrite mentor_samples_app, timer_total_app, Hsm, Htm.
      split; [reflexivity|]. split; [eauto | reflexivity].
  - rewrite (getMentorCount_timer_throws s e Hwait). cbn [fst snd].
    exists [EWaitForTimeout 2000]. split; [apply wait_trace|].
    split; [reflexivity|]. split; reflexivity.
Qed.

(** A run of [getMentorCount] that returned. *)
Lemma getMentorCount_ok (s s' : St W) (n : nat) :
  getMentorCount s = (Ok n, s') ->
  (wait 2000 s).1 = Ok tt
  /\ exists evs,
       trace s' = trace s ++ evs
       /\ mentor_samples evs = 1%nat /\ timer_total evs = 2000.
Proof.
  intros Hrun. destruct (getMentorCount_run s) as (evs & Htr & Htm & Hcase).
  rewrite Hrun in Htr, Hcase. cbn [fst snd] in *.
  destruct (wait 2000 s).1 as [[]|e].
  - split; [reflexivity|]. exists evs. tauto.
  - destruct Hcase as [[=] _].
Qed.

End WithDriver.

(** An empty page without any notice still counts as zero mentors. *)
Lemma getMentorCount_is_maximum_witness :
  exists s', getMentorCount Sim.empty_without_notice = (Ok 0%nat, s').
Proof.
  eexists.
  assert ((wait 2000 Sim.empty_without_notice).1 = Ok tt) as Hwait by reflexivity.
  apply (proj2 (getMentorCount_is_maximum Sim.empty_without_notice Hwait)).
  - vm_compute. repeat constructor.
  - repeat (eapply all_hidden_cons; [reflexivity|]). apply all_hidden_nil.
Defined.

(** An empty page with an "empty state" notice: the second indicator. *)
Lemma getMentorCount_zero_with_notice_witness :
  exists s', getMentorCount Sim.empty_with_notice = (Ok 0%nat, s').
Proof.
  eexists.
  eapply (getMentorCount_zero_with_notice Sim.empty_with_notice _ _
            [".no-results"] _ ".empty-state").
  - reflexivity.
  - vm_compute. repeat constructor.
  - reflexivity.
  - eapply all_hidden_cons; [reflexivity|]. apply all_hidden_nil.
  - reflexivity.
Defined.

End CountFacts.

(** ** [MentoringPage]: waiting for search results *)

Module StabilizeFacts.
Import TraceFacts BasePageFacts CountFacts.
Section WithDriver.
Context {W : Type} `{Driver W}.

(** Waiting and then counting.  Whatever happens, at most one sample is
    taken and the timer is asked for [ms], or for [ms + 2000] when the
    first wait returned. *)
Lemma sample_after_run (ms : Z) (s : St W) :
  exists evs,
    trace ((wait ms ;; getMentorCount : M W nat) s).2 = trace s ++ evs
    /\ (mentor_samples evs <= 1)%nat
    /\ (timer_total evs = ms \/ timer_total evs = ms + 2000).
Proof.
  unfold mbind, M_bind, bind.
  destruct (wait ms s) as [[[]|e] s0] eqn:Hwait.
  - destruct (getMentorCount_run s0) as (evs & Htr & Htm & Hcase).
    exists (EWaitForTimeout ms :: evs).
    assert (trace s0 = trace s ++ [EWaitForTimeout ms]) as Hs0.
    { rewrite <- (wait_trace ms s). now rewrite Hwait. }
    destruct (getMentorCount s0) as [[n|e] s1]; cbn [fst snd] in *.
    + split; [rewrite Htr, Hs0; now rewrite <- app_assoc|].
      change (EWaitForTimeout ms :: evs) with ([EWaitForTimeout ms] ++ evs).
      rewrite mentor_samples_app, timer_total_app, Htm.
      split; [|right; simpl; lia].
      destruct (wait 2000 s0).1; destruct Hcase as [_ ->]; simpl; lia.
    + split; [rewrite Htr, Hs0; now rewrite <- app_assoc|].
      change (EWaitForTimeout ms :: evs) with ([EWaitForTimeout ms] ++ evs).
      rewrite mentor_samples_app, timer_total_app, Htm.
      split; [|right; simpl; lia].
      destruct (wait 2000 s0).1; destruct Hcase as [_ ->]; simpl; lia.
  - exists [EWaitForTimeout ms]. cbn [fst snd].
    split; [rewrite <- (wait_trace ms s); now rewrite Hwait|].
    assert (mentor_samples [EWaitForTimeout ms] = 0%nat) as -> by reflexivity.
    split; [lia | left; simpl; lia].
Qed.

(** Waiting and then counting, when a count is returned: one sample,
    [ms + 2000] milliseconds asked of the timer. *)
Lemma sample_after_ok (ms : Z) (s s' : St W) (n : nat) :
  (wait ms ;; getMentorCount : M W nat) s = (Ok n, s') ->
  exists evs,
    trace s' = trace s ++ evs
    /\ mentor_samples evs = 1%nat /\ timer_total evs = ms + 2000.
Proof.
  unfold mbind, M_bind, bind.
  destruct (wait ms s) as [[[]|e] s0] eqn:Hwait; [|discriminate].
  intros Hcount. destruct (getMentorCount_ok _ _ _ Hcount) as (_ & evs & Htr & Hsm & Htm).
  exists (EWaitForTimeout ms :: evs).
  assert (trace s0 = trace s ++ [EWaitForTimeout ms]) as Hs0.
  { rewrite <- (wait_trace ms s). now rewrite Hwait. }
  split; [rewrite Htr, Hs0; now rewrite <- app_assoc|].
  change (EWaitForTimeout ms :: evs) with ([EWaitForTimeout ms] ++ evs).
  rewrite mentor_samples_app, timer_total_app, Hsm, Htm.
  split; [reflexivity | simpl; lia].
Qed.

(** The stabilization phase in terms of its two samples. *)
Lemma stabilize_cases (s : St W) :
  waitForSearchResults_stabilize s
  = match (wait 3000 ;; getMentorCount : M W nat) s with
    | (Ok beforeCount, s1) =>
        match (wait 2000 ;; getMentorCount : M W nat) s1 with
        | (Ok afterCount, s2) =>
            if (beforeCount =? afterCount)%nat then (Ok tt, s2) else wait 2000 s2
        | (Throw e, s2) => (Throw e, s2)
        end
    | (Throw e, s1) => (Throw e, s1)
    end.
Proof.
  unfold waitForSearchResults_stabilize, mbind, M_bind, bind.
  destruct (wait 3000 s) as [[[]|e] s0]; [|reflexivity].
  destruct (getMentorCount s0) as [[b|e] s1]; [|reflexivity].
  destruct (wait 2000 s1) as [[[]|e] s0']; [|reflexivity].
  destruct (getMentorCount s0') as [[a|e] s2]; [|reflexivity].
  destruct (b =? a)%nat; reflexivity.
Qed.

Lemma stabilize_unfold (s s1 s2 : St W) (beforeCount afterCount : nat) :
  (wait 3000 ;; getMentorCount : M W nat) s = (Ok beforeCount, s1) ->
  (wait 2000 ;; getMentorCount : M W nat) s1 = (Ok afterCount, s2) ->
  waitForSearchResults_stabilize s
  = if (beforeCount =? afterCount)%nat then (Ok tt, s2) else wait 2000 s2.
Proof.
  intros Hfirst Hsecond. now rewrite stabilize_cases, Hfirst, Hsecond.
Qed.

(** C2, as the code has it.  When the two samples differ, the phase waits
    once more for the settle delay and ends with the outcome of that
    wait; no third sample is taken.  When they are equal it returns at
    once. *)
Theorem stabilize_waits_once_more_without_resampling
    (s s1 s2 : St W) (beforeCount afterCount : nat) :
  (wait 3000 ;; getMentorCount : M W nat) s = (Ok beforeCount, s1) ->
  (wait settleDelay ;; getMentorCount : M W nat) s1 = (Ok afterCount, s2) ->
  let r := if (beforeCount =? afterCount)%nat then (Ok tt, s2)
           else wait settleDelay s2 in
  waitForSearchResults_stabilize s = r
  /\ mentor_samples (new_events s r.2) = 2%nat
  /\ new_events s2 r.2
     = if (beforeCount =? afterCount)%nat then [] else [EWaitForTimeout settleDelay].
Proof.
  intros Hfirst Hsecond r.
  destruct (sample_after_ok 3000 s s1 _ Hfirst) as (evs1 & Htr1 & Hsm1 & _).
  destruct (sample_after_ok settleDelay s1 s2 _ Hsecond) as (evs2 & Htr2 & Hsm2 & _).
  split; [|split].
  - exact (stabilize_unfold s s1 s2 beforeCount afterCount Hfirst Hsecond).
  - unfold r. destruct (beforeCount =? afterCount)%nat; cbn [snd].
    + rewrite (new_events_app s s2 (evs1 ++ evs2)).
      * now rewrite mentor_samples_app, Hsm1, Hsm2.
      * now rewrite Htr2, Htr1, <- app_assoc.
    + rewrite (new_events_app s _ (evs1 ++ evs2 ++ [EWaitForTimeout settleDelay])).
      * now rewrite !mentor_samples_app, Hsm1, Hsm2.
      * rewrite wait_trace. now rewrite Htr2, Htr1, <- !app_assoc.
  - unfold r. destruct (beforeCount =? afterCount)%nat; cbn [snd].
    + apply new_events_app. now rewrite app_nil_r.
    + apply new_events_app. apply wait_trace.
Qed.

(** C3, as the code has it.  In every execution of the stabilization
    phase, however the count behaves and whether or not a call rejects,
    no more than two samples are taken and the timer is asked for no more
    than 11000 ms: the initial 3000 ms, the 2000 ms that each
    [getMentorCount] waits, and twice the settle delay.  That is not
    twice the settle delay: a phase that returns has taken its two
    samples and has asked the timer for at least 9000 ms. *)
Theorem stabilize_two_samples_timer_bounds (s : St W) :
  let r := waitForSearchResults_stabilize s in
  (mentor_samples (new_events s r.2) <= 2)%nat
  /\ timer_total (new_events s r.2) <= 3000 + 2 * 2000 + 2 * settleDelay
  /\ (r.1 = Ok tt ->
      mentor_samples (new_events s r.2) = 2%nat
      /\ 3000 + 2 * 2000 + settleDelay <= timer_total (new_events s r.2)).
Proof.
  cbn zeta. rewrite stabilize_cases. unfold settleDelay.
  destruct (sample_after_run 3000 s) as (evs1 & Htr1 & Hle1 & Htm1).
  destruct ((wait 3000 ;; getMentorCount : M W nat) s) as [[b|e] s1] eqn:Hfirst;
    cbn [fst snd] in *.
  - destruct (sample_after_ok 3000 s s1 b Hfirst) as (evs1' & Htr1' & Hsm1 & Htm1').
    rewrite Htr1' in Htr1. apply app_inv_head in Htr1. subst evs1'.
    destruct (sample_after_run 2000 s1) as (evs2 & Htr2 & Hle2 & Htm2).
    destruct ((wait 2000 ;; getMentorCount : M W nat) s1) as [[a|e] s2] eqn:Hsecond;
      cbn [fst snd] in *.
    + destruct (sample_after_ok 2000 s1 s2 a Hsecond) as (evs2' & Htr2' & Hsm2 & Htm2').
      rewrite Htr2' in Htr2. apply app_inv_head in Htr2. subst evs2'.
      destruct (b =? a)%nat; cbn [fst snd].
      * rewrite (new_events_app s s2 (evs1 ++ evs2))
          by (now rewrite Htr2', Htr1', <- app_assoc).
        rewrite mentor_samples_app, timer_total_app, Hsm1, Hsm2, Htm1', Htm2'.
        repeat split; lia.
      * rewrite (new_events_app s _ (evs1 ++ evs2 ++ [EWaitForTimeout 2000]))
          by (rewrite wait_trace; now rewrite Htr2', Htr1', <- !app_assoc).
        rewrite !mentor_samples_app, !timer_total_app, Hsm1, Hsm2, Htm1', Htm2'.
        assert (mentor_samples [EWaitForTimeout 2000] = 0%nat) as -> by reflexivity.
        assert (timer_total [EWaitForTimeout 2000] = 2000) as -> by reflexivity.
        repeat split; lia.
    + rewrite (new_events_app s s2 (evs1 ++ evs2))
        by (now rewrite Htr2, Htr1', <- app_assoc).
      rewrite mentor_samples_app, timer_total_app, Hsm1, Htm1'.
      split; [lia|]. split; [lia | discriminate].
  - rewrite (new_events_app s s1 evs1 Htr1).
    split; [lia|]. split; [lia | discriminate].
Qed.

End WithDriver.

(** On a page whose cards keep appearing, the samples are 6 and 10 and the
    phase ends after one more wait. *)
Lemma stabilize_waits_once_more_without_resampling_witness :
  waitForSearchResults_stabilize Sim.growing_results = (Ok tt, Sim.growing_end)
  /\ mentor_samples (new_events Sim.growing_results Sim.growing_end) = 2%nat.
Proof.
  assert ((wait 3000 ;; getMentorCount : M Sim.World nat) Sim.growing_results
          = (Ok 6%nat, Sim.growing_first)) as Hfirst by (vm_compute; reflexivity).
  assert ((wait settleDelay ;; getMentorCount : M Sim.World nat) Sim.growing_first
          = (Ok 10%nat, Sim.growing_second)) as Hsecond by (vm_compute; reflexivity).
  destruct (stabilize_waits_once_more_without_resampling _ _ _ _ _ Hfirst Hsecond)
    as (Hrun & Hcount & _).
  split; [rewrite Hrun; vm_compute; reflexivity | exact Hcount].
Defined.

(** A steady page: the phase returns after two samples and 9000 ms of
    timer waits. *)
Lemma stabilize_two_samples_timer_bounds_witness :
  mentor_samples
    (new_events Sim.steady_results
       (waitForSearchResults_stabilize Sim.steady_results).2) = 2%nat
  /\ 9000 <= timer_total
              (new_events Sim.steady_results
                 (waitForSearchResults_stabilize Sim.steady_results).2).
Proof.
  apply (proj2 (proj2 (stabilize_two_samples_timer_bounds Sim.steady_results))).
  vm_compute. reflexivity.
Defined.

(** C2 fails as stated: on a page whose cards keep appearing the two
    samples differ (6 and 10 cards), yet two samples are taken in all, not
    three. *)
Lemma stabilize_takes_no_third_sample :
  ~ (forall (beforeCount afterCount : nat) (s1 s2 s' : St Sim.World),
        (wait 3000 ;; getMentorCount : M Sim.World nat) Sim.growing_results
        = (Ok beforeCount, s1) ->
        (wait settleDelay ;; getMentorCount : M Sim.World nat) s1 = (Ok afterCount, s2) ->
        beforeCount <> afterCount ->
        waitForSearchResults_stabilize Sim.growing_results = (Ok tt, s') ->
        mentor_samples (new_events Sim.growing_results s') = 3%nat).
Proof.
  intros Hclaim.
  specialize (Hclaim 6%nat 10%nat Sim.growing_first Sim.growing_second Sim.growing_end).
  assert (mentor_samples (new_events Sim.growing_results Sim.growing_end) = 3%nat) as Hthree.
  { apply Hclaim; [vm_compute; reflexivity | vm_compute; reflexivity | discriminate
                  | vm_compute; reflexivity]. }
  vm_compute in Hthree. discriminate.
Qed.

(** C3 fails as stated: on a steady page the phase spends 9000 ms in the
    timer, more than twice the settle delay. *)
Lemma stabilize_exceeds_twice_settle_delay :
  ~ (timer_total (new_events Sim.steady_results
                    (waitForSearchResults_stabilize Sim.steady_results).2)
     <= 2 * settleDelay).
Proof. vm_compute. intros Hle. apply Hle. reflexivity. Qed.

End StabilizeFacts.

(** ** [MentoringPage]: searching *)

Module SearchFacts.
Import JsFacts BasePageFacts.
Section WithDriver.
Context {W : Type} `{Driver W}.

(** The search-input loop binds the first candidate whose probe succeeds,
    whatever comes after it in the list. *)
Lemma searchMentors_findInput_first (pre post : list string) (selector : string)
    (timeout : Z) (s s1 s2 : St W) :
  all_hidden timeout pre s s1 ->
  isElementVisible (locator selector) (Some timeout) s1 = (Ok true, s2) ->
  searchMentors_findInput (pre ++ selector :: post) timeout s
  = (Ok (Some (locator selector, selector)), s2).
Proof.
  intros Hpre Hvis. induction Hpre as [s|sel rest s sa sb Hsel _ IH].
  - simpl. unfold mbind, M_bind, bind. now rewrite Hvis.
  - simpl. unfold mbind, M_bind, bind. rewrite Hsel. apply IH, Hvis.
Qed.

(** Conversely, whatever the loop binds was probed visible after all the
    candidates before it had been probed without success. *)
Lemma searchMentors_findInput_inv (selectors : list string) (timeout : Z)
    (s s2 : St W) (l : Locator) (selector : string) :
  searchMentors_findInput selectors timeout s = (Ok (Some (l, selector)), s2) ->
  exists pre post s1,
    selectors = pre ++ selector :: post
    /\ l = locator selector
    /\ all_hidden timeout pre s s1
    /\ isElementVisible (locator selector) (Some timeout) s1 = (Ok true, s2).
Proof.
  revert s. induction selectors as [|sel rest IH]; intros s; [discriminate|].
  simpl. unfold mbind, M_bind, bind.
  destruct (isElementVisible (locator sel) (Some timeout) s) as [[[]|e] sa] eqn:Hsel.
  - intros [= <- <- <-]. exists [], rest, s. repeat split; [constructor | exact Hsel].
  - intros Hrest. destruct (IH sa Hrest) as (pre & post & s1 & -> & -> & Hpre & Hvis).
    exists (sel :: pre), post, s1. repeat split; [|exact Hvis].
    econstructor; eassumption.
  - discriminate.
Qed.

(** When no candidate is visible, nothing is bound and nothing is thrown. *)
Lemma searchMentors_findInput_none (selectors : list string) (timeout : Z)
    (s s' : St W) :
  all_hidden timeout selectors s s' ->
  searchMentors_findInput selectors timeout s = (Ok None, s').
Proof.
  induction 1 as [s|sel rest s sa sb Hsel _ IH]; [reflexivity|].
  simpl. unfold mbind, M_bind, bind. now rewrite Hsel.
Qed.

(** C1. Let a list of candidate selectors contain a candidate that is
    visible when probed, all candidates before it having been probed
    without success.  Then the search-input loop binds that candidate, the
    earliest visible one, whatever follows it in the list (later visible
    candidates included); and [searchMentors], whose list is
    [searchSelectors] and whose probe timeout is 2000 ms, goes on to type
    into that candidate. *)
Theorem searchMentors_binds_earliest_visible
    (selectors pre post : list string) (selector : string) (timeout : Z)
    (s s1 s2 : St W) :
  selectors = pre ++ selector :: post ->
  all_hidden timeout pre s s1 ->
  isElementVisible (locator selector) (Some timeout) s1 = (Ok true, s2) ->
  searchMentors_findInput selectors timeout s
  = (Ok (Some (locator selector, selector)), s2)
  /\ (selectors = searchSelectors -> timeout = 2000 ->
      forall (keyword : string) (s0 : St W),
        keyword_is_blank keyword = false ->
        waitForPageLoad None s0 = (Ok tt, s) ->
        searchMentors keyword s0
        = searchMentors_withInput (locator selector) keyword s2).
Proof.
  intros -> Hpre Hvis.
  pose proof (searchMentors_findInput_first pre post selector timeout s s1 s2 Hpre Hvis)
    as Hfind.
  split; [exact Hfind|].
  intros Hlist -> keyword s0 Hblank Hload.
  unfold searchMentors. rewrite Hblank.
  unfold mbind, M_bind, bind. rewrite Hload, <- Hlist, Hfind. reflexivity.
Qed.

(** C4. For a keyword that is empty or made of white space only,
    [searchMentors] throws "Search keyword cannot be empty" and leaves the
    state as it was: the world is untouched and no driver call is made. *)
Theorem searchMentors_rejects_blank (keyword : string) (s : St W) :
  keyword = EmptyString \/ all_space keyword = true ->
  searchMentors keyword s = (Throw (Error "Search keyword cannot be empty"), s).
Proof.
  intros Hblank. unfold searchMentors.
  rewrite keyword_is_blank_all_space; [reflexivity|].
  destruct Hblank as [->|Hs]; [reflexivity | exact Hs].
Qed.

End WithDriver.

(** With the fifth and the seventh candidate displayed, the fifth is bound. *)
Lemma searchMentors_binds_earliest_visible_witness :
  exists s2,
    searchMentors "Engineer" Sim.two_inputs
    = searchMentors_withInput (locator ".search-input") "Engineer" s2.
Proof.
  edestruct (searchMentors_binds_earliest_visible
               searchSelectors (take 4 searchSelectors) (drop 5 searchSelectors)
               ".search-input" 2000 (waitForPageLoad None Sim.two_inputs).2)
    as [_ Hsearch].
  - reflexivity.
  - repeat (eapply all_hidden_cons; [reflexivity|]). apply all_hidden_nil.
  - reflexivity.
  - eexists. apply Hsearch; reflexivity.
Defined.

(** A keyword of three spaces is refused before anything happens. *)
Lemma searchMentors_rejects_blank_witness :
  searchMentors "   " Sim.two_inputs
  = (Throw (Error "Search keyword cannot be empty"), Sim.two_inputs).
Proof.
  apply searchMentors_rejects_blank. right. reflexivity.
Defined.

End SearchFacts.

(** ** [MentoringPage]: verifying the page *)

Module TitleFacts.
Import JsFacts.

(** A title that contains a marker, whatever the case of its letters,
    passes the title test.  The marker is given in lower case. *)
Lemma titleLower_includes (title marker : string) :
  toLowerCase marker = marker ->
  contains_ci title marker ->
  includes (toLowerCase title) marker = true.
Proof.
  intros Hlow (pre & mid & post & -> & Hmid).
  rewrite !toLowerCase_app, (toLowerCase_same_text _ _ Hmid), Hlow.
  apply includes_app.
Qed.

Section WithDriver.
Context {W : Type} `{Driver W}.

(** C6. The title test of [verifyPageLoaded] passes for every title that
    contains "mentor" in any mix of upper and lower case, and throws the
    title error for "404 Not Found"; and [verifyPageLoaded], once the page
    heading has appeared and the title has been read, fails with exactly
    that error or goes on to the URL check, as the title test decides. *)
Theorem verifyPageLoaded_title_check :
  (forall title, contains_ci title "mentor" -> titleCheck title = Ok tt)
  /\ titleCheck "404 Not Found"
     = Throw (Error ("Page title does not indicate mentoring page. Actual title: "
                     +:+ dq +:+ "404 Not Found" +:+ dq))
  /\ (forall (title : string) (s s1 s2 : St W),
        waitForElement pageTitle (Some 20000) s = (Ok tt, s1) ->
        getPageTitle s1 = (Ok title, s2) ->
        verifyPageLoaded s
        = match titleCheck title with
          | Ok _ => verifyPageLoaded_afterTitle s2
          | Throw e => (Throw e, s2)
          end).
Proof.
  split; [|split].
  - intros title Hci. unfold titleCheck.
    rewrite (titleLower_includes title "mentor" eq_refl Hci).
    simpl negb. now rewrite andb_false_r.
  - reflexivity.
  - intros title s s1 s2 Hwait Htitle.
    unfold verifyPageLoaded, mbind, M_bind, bind, lift.
    rewrite Hwait, Htitle. now destruct (titleCheck title) as [[]|e].
Qed.

End WithDriver.

(** A title in capitals passes; the error page of a broken build fails in
    [verifyPageLoaded] right after the title has been read. *)
Lemma verifyPageLoaded_title_check_witness :
  titleCheck "Dealls MENTORING Program" = Ok tt
  /\ (verifyPageLoaded Sim.not_found_page).1
     = Throw (Error ("Page title does not indicate mentoring page. Actual title: "
                     +:+ dq +:+ "404 Not Found" +:+ dq)).
Proof.
  destruct (@verifyPageLoaded_title_check Sim.World _) as (Hpass & _ & Hrun).
  split.
  - apply Hpass. exists "Dealls ", "MENTOR", "ING Program". split; [reflexivity|].
    vm_compute. repeat split; right; left; (split; [lia | reflexivity]).
  - erewrite (Hrun "404 Not Found" Sim.not_found_page); reflexivity.
Defined.

End TitleFacts.

(** ** Test configuration *)

Module ConfigFacts.
Import TestConfig.

Lemma environment_of_unset (env : gmap string string) :
  environment_of (delete "TEST_ENV" env) = "development".
Proof. unfold environment_of. now rewrite lookup_delete_eq. Qed.

Lemma environment_of_set (env : gmap string string) (v : string) :
  environment_of (<["TEST_ENV" := v]> env)
  = if String.eqb v EmptyString then "development" else v.
Proof. unfold environment_of. now rewrite lookup_insert_eq. Qed.

(** C9. The profile is chosen by the one variable [TEST_ENV]: two
    environments that agree on it give the same configuration; the values
    "development", "staging" and "production" select the profile of that
    name; the result is always one of the three profiles; and when the
    variable is unset the development profile is returned. *)
Theorem getTestConfig_selects_profile :
  (forall env, getTestConfig (delete "TEST_ENV" env) = development)
  /\ (forall env, getTestConfig (<["TEST_ENV" := "development"]> env) = development)
  /\ (forall env, getTestConfig (<["TEST_ENV" := "staging"]> env) = staging)
  /\ (forall env, getTestConfig (<["TEST_ENV" := "production"]> env) = production)
  /\ (forall env env' : gmap string string,
        env !! "TEST_ENV" = env' !! "TEST_ENV" -> getTestConfig env = getTestConfig env')
  /\ (forall env, getTestConfig env ∈ [development; staging; production]).
Proof.
  repeat split.
  - intros env. unfold getTestConfig. now rewrite environment_of_unset.
  - intros env. unfold getTestConfig. now rewrite environment_of_set.
  - intros env. unfold getTestConfig. now rewrite environment_of_set.
  - intros env. unfold getTestConfig. now rewrite environment_of_set.
  - intros env env' Hsame. unfold getTestConfig, environment_of. now rewrite Hsame.
  - intros env. unfold getTestConfig.
    destruct (String.eqb _ "staging"); [set_solver|].
    destruct (String.eqb _ "production"); set_solver.
Qed.

(** Other variables do not matter: with only [CI] set, the configuration is
    the one of the empty environment, the development profile. *)
Lemma getTestConfig_selects_profile_witness :
  getTestConfig {["CI" := "true"]} = development.
Proof.
  destruct getTestConfig_selects_profile as (Hunset & _ & _ & _ & Hkey & _).
  rewrite (Hkey {["CI" := "true"]} (delete "TEST_ENV" ∅)).
  - apply Hunset.
  - vm_compute. reflexivity.
Defined.

End ConfigFacts.

(* ===================================================================== *)
(** * Further properties                                                  *)
(* ===================================================================== *)

(** ** White space *)

Module TrimFacts.

(** A string that does not begin with white space. *)
Lemma trimStart_fixed (c : ascii) (s : string) :
  is_space c = false -> trimStart (String c s) = String c s.
Proof. intros Hc. simpl. now rewrite Hc. Qed.

Lemma trimStart_cases (s : string) :
  trimStart s = EmptyString
  \/ exists c t, trimStart s = String c t /\ is_space c = false.
Proof.
  induction s as [|c s IH]; simpl; [now left|].
  destruct (is_space c) eqn:Hc; [exact IH|]. right. eauto.
Qed.

Lemma trimEnd_idem (s : string) : trimEnd (trimEnd s) = trimEnd s.
Proof.
  induction s as [|c s IH]; [reflexivity|].
  simpl. destruct (trimEnd s) as [|d t] eqn:Ht.
  - destruct (is_space c) eqn:Hc; [reflexivity|]. simpl. now rewrite Hc.
  - change (trimEnd (String c (String d t)))
      with (match trimEnd (String d t) with
            | EmptyString => if is_space c then EmptyString else String c EmptyString
            | String e u => String c (String e u)
            end).
    now rewrite IH.
Qed.

(** [trimEnd] keeps a first character that is not white space. *)
Lemma trimEnd_head (c : ascii) (s : string) :
  is_space c = false -> exists t, trimEnd (String c s) = String c t.
Proof.
  intros Hc. simpl. destruct (trimEnd s); rewrite ?Hc; eauto.
Qed.

Lemma append_assoc (s t u : string) : (s +:+ t) +:+ u = s +:+ t +:+ u.
Proof.
  induction s as [|c s IH]; [reflexivity|].
  change (String c ((s +:+ t) +:+ u) = String c (s +:+ t +:+ u)). now rewrite IH.
Qed.

(** Trimming twice is trimming once. *)
Lemma trim_idem (s : string) : trim (trim s) = trim s.
Proof.
  unfold trim. destruct (trimStart_cases s) as [->|(c & t & -> & Hc)]; [reflexivity|].
  destruct (trimEnd_head c t Hc) as [u Hu]. rewrite Hu.
  rewrite (trimStart_fixed c u Hc), <- Hu. apply trimEnd_idem.
Qed.

End TrimFacts.

(** ** Test configuration, continued *)

Module ConfigMoreFacts.
Import TestConfig.

(** X1. A value of [TEST_ENV] other than "staging" and "production" selects
    the development profile: unknown names, names in another case and the
    empty string all fall back to it. *)
Theorem getTestConfig_falls_back (env : gmap string string) (v : string) :
  env !! "TEST_ENV" = Some v ->
  v <> "staging" -> v <> "production" ->
  getTestConfig env = development.
Proof.
  intros Hv Hs Hp. unfold getTestConfig, environment_of. rewrite Hv.
  destruct (String.eqb_spec v EmptyString) as [->|_]; [reflexivity|].
  destruct (String.eqb_spec v "staging"); [contradiction|].
  destruct (String.eqb_spec v "production"); [contradiction|]. reflexivity.
Qed.

Lemma getTestConfig_falls_back_witness :
  getTestConfig {["TEST_ENV" := "Staging"]} = development.
Proof.
  apply (getTestConfig_falls_back _ "Staging");
    [vm_compute; reflexivity | discriminate | discriminate].
Defined.

(** X2. Whatever the environment, the selected configuration has the
    default timeouts, viewports, browsers, screenshot and video settings
    and the mentoring path "/mentoring"; a profile differs from the
    default only in its base URL and its retry counts, and it retries at
    least as often on CI as locally. *)
Theorem getTestConfig_shares_defaults (env : gmap string string) :
  let c := getTestConfig env in
  timeouts c = timeouts defaultTestConfig
  /\ viewports c = viewports defaultTestConfig
  /\ browsers c = browsers defaultTestConfig
  /\ screenshots c = screenshots defaultTestConfig
  /\ videos c = videos defaultTestConfig
  /\ mentoring (urls c) = "/mentoring"
  /\ local (retries c) <= ci (retries c).
Proof.
  cbn zeta. unfold getTestConfig.
  destruct (String.eqb _ "staging"); [repeat split; discriminate|].
  destruct (String.eqb _ "production"); repeat split; discriminate.
Qed.

End ConfigMoreFacts.

(** ** [BasePage], continued *)

Module BasePageMoreFacts.
Import JsFacts TrimFacts TraceFacts.
Section WithDriver.
Context {W : Type} `{Driver W} `{DriverMore W}.

(** X3. A successful [typeText] makes exactly these driver calls, in this
    order: wait for the field to be visible (30000 ms), clear it unless
    [options.clear] is [false], fill it (10000 ms), read its value back.
    The [delay] option plays no part. *)
Theorem typeText_call_sequence (l : Locator) (text : string)
    (options : option TypeOptions) (s s' : St W) :
  typeText l text options s = (Ok tt, s') ->
  new_events s s'
  = EWaitFor l Visible 30000
    :: (if clear_wanted options then [EClear l] else [])
    ++ [EFill l text 10000; EInputValue l].
Proof.
  unfold typeText, typeText_body, typeText_fill, waitForElement. run.
  destruct (locator_waitFor l Visible (default 30000 None) (world s)) as [[[]|e] w1];
    cbn beta iota; [|discriminate].
  destruct (clear_wanted options); cbn beta iota.
  - cbn [world trace].
    destruct (locator_clear l w1) as [[[]|e] w2]; cbn beta iota; [|discriminate].
    cbn [world trace].
    destruct (locator_fill l text 10000 w2) as [[[]|e] w3]; cbn beta iota; [|discriminate].
    cbn [world trace].
    destruct (locator_inputValue l w3) as [[v|e] w4]; cbn beta iota; [|discriminate].
    destruct (String.eqb v text); cbn [negb]; cbn beta iota; [|discriminate].
    intros [= <-]. apply new_events_app. cbn [trace]. now rewrite <- !app_assoc.
  - cbn [world trace].
    destruct (locator_fill l text 10000 w1) as [[[]|e] w3]; cbn beta iota; [|discriminate].
    cbn [world trace].
    destruct (locator_inputValue l w3) as [[v|e] w4]; cbn beta iota; [|discriminate].
    destruct (String.eqb v text); cbn [negb]; cbn beta iota; [|discriminate].
    intros [= <-]. apply new_events_app. cbn [trace]. now rewrite <- !app_assoc.
Qed.

(** X4. When the element does not become visible, [clickElement] fails
    without attempting the click.  Its error names the locator and the
    timeout of the wait; the error raised by the driver is not part of
    the message. *)
Theorem clickElement_wait_failure (l : Locator) (options : option ClickOptions)
    (s : St W) (e : JsError) (w' : W) :
  let timeout := default 30000 (options ≫= click_timeout) in
  locator_waitFor l Visible timeout (world s) = (Throw e, w') ->
  clickElement l options s
  = (Throw (Error ("Failed to click element " +:+ locator_toString l
                   +:+ ": Error: Element not found within " +:+ show_Z timeout
                   +:+ "ms: " +:+ locator_toString l)),
     mkSt w' (trace s ++ [EWaitFor l Visible timeout])).
Proof.
  intros timeout Hwait. unfold clickElement, waitForElement. run.
  fold timeout. rewrite Hwait. reflexivity.
Qed.

(** Whatever [getElementText] returns is the trimmed content of the node,
    or the empty string for a node without content. *)
Lemma getElementText_inv (l : Locator) (s s' : St W) (t : string) :
  getElementText l s = (Ok t, s') -> exists text, t = trimmed_or_empty text.
Proof.
  unfold getElementText, try_catch, mbind, M_bind, bind.
  destruct (waitForElement l None s) as [[[]|e] s1]; [|discriminate].
  destruct (call_more (locator_textContent l) s1) as [[text|e] s2]; [|discriminate].
  unfold mret, M_ret, ret. intros [= <- _]. eauto.
Qed.

Lemma trimmed_or_empty_trimmed (text : option string) :
  trim (trimmed_or_empty text) = trimmed_or_empty text.
Proof. destruct text; [apply trim_idem | reflexivity]. Qed.

(** X5. The text that [getElementText] returns is trimmed: trimming it
    again changes nothing.  An element without text content gives the
    empty string, not an error. *)
Theorem getElementText_trimmed (l : Locator) (s : St W) :
  (forall t s', getElementText l s = (Ok t, s') -> trim t = t)
  /\ (forall s1 s2,
        waitForElement l None s = (Ok tt, s1) ->
        call_more (locator_textContent l) s1 = (Ok None, s2) ->
        getElementText l s = (Ok EmptyString, s2)).
Proof.
  split.
  - intros t s' Hrun. destruct (getElementText_inv l s s' t Hrun) as [text ->].
    apply trimmed_or_empty_trimmed.
  - intros s1 s2 Hwait Htext.
    unfold getElementText, try_catch, mbind, M_bind, bind.
    now rewrite Hwait, Htext.
Qed.

(** X6. The path that [takeScreenshot] returns is
    [screenshots/<name>-<time>.png], where the time is the clock reading
    taken at the start of the call; it contains the name and the time. *)
Theorem takeScreenshot_path (name path : string) (s s' : St W) :
  takeScreenshot name s = (Ok path, s') ->
  path = "screenshots/" +:+ name +:+ "-" +:+ show_Z (date_now (world s)) +:+ ".png"
  /\ includes path name = true
  /\ includes path (show_Z (date_now (world s))) = true.
Proof.
  unfold takeScreenshot, try_catch, mbind, M_bind, bind, call_more.
  cbn [world trace].
  destruct (page_screenshot _ true (world s)) as [[[]|e] w']; [|discriminate].
  unfold mret, M_ret, ret. intros [= <- _]. unfold screenshotPath_of.
  split; [reflexivity|]. split.
  - apply includes_app.
  - rewrite <- (append_assoc name "-"), <- (append_assoc "screenshots/").
    apply includes_app.
Qed.

End WithDriver.

Lemma typeText_call_sequence_witness :
  new_events Sim.two_inputs
    (typeText (locator ".search-input") "abc"
       (Some (mkTypeOptions (Some false) (Some 50))) Sim.two_inputs).2
  = [EWaitFor (locator ".search-input") Visible 30000;
     EFill (locator ".search-input") "abc" 10000;
     EInputValue (locator ".search-input")].
Proof.
  apply (typeText_call_sequence (locator ".search-input") "abc"
           (Some (mkTypeOptions (Some false) (Some 50))) Sim.two_inputs).
  reflexivity.
Defined.

Lemma clickElement_wait_failure_witness :
  (clickElement (locator ".search-button") (Some (mkClickOptions (Some 0) None))
     Sim.two_inputs).1
  = Throw (Error "Failed to click element locator('.search-button'): Error: Element not found within 0ms: locator('.search-button')").
Proof.
  erewrite (clickElement_wait_failure (locator ".search-button")
              (Some (mkClickOptions (Some 0) None)) Sim.two_inputs);
    reflexivity.
Defined.

(** The company element of the simulated page reads "  Dealls  "; the
    same element without text content reads as the empty string. *)
Lemma getElementText_trimmed_witness :
  (getElementText mentorCompanies SimMore.with_companies).1 = Ok "Dealls"
  /\ trim "Dealls" = "Dealls"
  /\ (getElementText mentorCompanies
        (SimMore.start (mkSt (SimMore.page (world SimMore.with_companies)) []) [] None)).1
     = Ok EmptyString.
Proof.
  split; [reflexivity|]. split.
  - apply (proj1 (getElementText_trimmed mentorCompanies SimMore.with_companies)
             "Dealls" (getElementText mentorCompanies SimMore.with_companies).2).
    reflexivity.
  - erewrite (proj2 (getElementText_trimmed mentorCompanies _)); reflexivity.
Defined.

Lemma takeScreenshot_path_witness :
  includes "screenshots/home-1700000000000.png" "home" = true.
Proof.
  apply (takeScreenshot_path "home" "screenshots/home-1700000000000.png"
           SimMore.with_headings (takeScreenshot "home" SimMore.with_headings).2).
  reflexivity.
Defined.

End BasePageMoreFacts.

(** ** [MentoringPage], continued: searching and filtering *)

Module SearchMoreFacts.
Import JsFacts BasePageFacts CountFacts StabilizeFacts SearchFacts TraceFacts.
Section WithDriver.
Context {W : Type} `{Driver W}.

(** The loading-indicator loop of [waitForSearchResults] swallows every
    error. *)
Lemma waitForSearchResults_drain_total (selectors : list string) (s : St W) :
  exists s', waitForSearchResults_drain selectors s = (Ok tt, s').
Proof.
  revert s. induction selectors as [|sel rest IH]; intros s; [simpl; eauto|].
  simpl. unfold try_catch, mbind, M_bind, bind.
  rewrite isElementVisible_run. cbn zeta.
  destruct (is_ok _); [|apply IH].
  destruct (call _ _ _) as [[[]|e] s1]; apply IH.
Qed.

(** Whatever a wait throws, the timer threw. *)
Lemma wait_throws_timer (ms : Z) (s : St W) (e : JsError) :
  (wait ms s).1 = Throw e -> exists ms' w, (page_waitForTimeout ms' w).1 = Throw e.
Proof. rewrite wait_spec. cbn [fst]. eauto. Qed.

(** Whatever [getMentorCount] throws, the timer threw. *)
Lemma getMentorCount_throws_timer (s : St W) (e : JsError) :
  (getMentorCount s).1 = Throw e ->
  exists ms w, (page_waitForTimeout ms w).1 = Throw e.
Proof.
  intros Hthrow. destruct (getMentorCount_run s) as (evs & _ & _ & Hcase).
  destruct (wait 2000 s).1 as [[]|e'] eqn:Hwait.
  - destruct Hcase as [[n Hn] _]. congruence.
  - destruct Hcase as [He _]. rewrite He in Hthrow. injection Hthrow as ->.
    now apply (wait_throws_timer 2000 s).
Qed.

Lemma sample_after_throws_timer (ms : Z) (s : St W) (e : JsError) :
  ((wait ms ;; getMentorCount : M W nat) s).1 = Throw e ->
  exists ms' w, (page_waitForTimeout ms' w).1 = Throw e.
Proof.
  unfold mbind, M_bind, bind.
  destruct (wait ms s) as [[[]|e'] s0] eqn:Hwait.
  - apply getMentorCount_throws_timer.
  - cbn [fst]. intros [= ->]. apply (wait_throws_timer ms s). now rewrite Hwait.
Qed.

(** Whatever [waitForSearchResults] throws, the timer threw: the errors of
    probes and of waits for loading indicators are swallowed, and counting
    fails only through its pause. *)
Lemma waitForSearchResults_throws_timer (s : St W) (e : JsError) :
  (waitForSearchResults s).1 = Throw e ->
  exists ms w, (page_waitForTimeout ms w).1 = Throw e.
Proof.
  unfold waitForSearchResults, mbind, M_bind, bind.
  destruct (waitForSearchResults_drain_total loadingSelectors s) as [s0 ->].
  rewrite stabilize_cases.
  destruct ((wait 3000 ;; getMentorCount : M W nat) s0) as [[b|e1] s1] eqn:Hfirst.
  - destruct ((wait 2000 ;; getMentorCount : M W nat) s1) as [[a|e2] s2] eqn:Hsecond.
    + destruct (b =? a)%nat; [discriminate|]. apply wait_throws_timer.
    + cbn [fst]. intros [= ->]. apply (sample_after_throws_timer 2000 s1).
      now rewrite Hsecond.
  - cbn [fst]. intros [= ->]. apply (sample_after_throws_timer 3000 s0).
    now rewrite Hfirst.
Qed.

(** With a timer that never rejects, [waitForSearchResults] returns. *)
Lemma waitForSearchResults_reliable (s : St W) :
  timer_reliable W -> waitForSearchResults s = (Ok tt, (waitForSearchResults s).2).
Proof.
  intros Htimer. destruct (waitForSearchResults s) as [[[]|e] s'] eqn:Hrun;
    [reflexivity|].
  destruct (waitForSearchResults_throws_timer s e) as (ms & w & Hthrow);
    [now rewrite Hrun|].
  rewrite (Htimer ms w) in Hthrow. discriminate.
Qed.

(** X7. [waitForSearchResults] throws only what [page.waitForTimeout]
    threw: errors raised while probing or waiting for loading indicators
    are swallowed, and counting fails only through its pause.  With a
    timer that never rejects it never throws. *)
Theorem waitForSearchResults_throws_only_timer (s : St W) :
  (forall e, (waitForSearchResults s).1 = Throw e ->
             exists ms w, (page_waitForTimeout ms w).1 = Throw e)
  /\ (timer_reliable W -> (waitForSearchResults s).1 = Ok tt).
Proof.
  split.
  - apply waitForSearchResults_throws_timer.
  - intros Htimer. now rewrite (waitForSearchResults_reliable s Htimer).
Qed.

(** X8. When none of the candidate search inputs is visible,
    [searchMentors] fails with "Search input not available on the page"
    after the probes; nothing is typed or clicked. *)
Theorem searchMentors_no_input (keyword : string) (s s1 s2 : St W) :
  keyword_is_blank keyword = false ->
  waitForPageLoad None s = (Ok tt, s1) ->
  all_hidden 2000 searchSelectors s1 s2 ->
  searchMentors keyword s
  = (Throw (Error "Search input not available on the page"), s2).
Proof.
  intros Hblank Hload Hnone. unfold searchMentors. rewrite Hblank.
  unfold mbind, M_bind, bind. rewrite Hload.
  now rewrite (searchMentors_findInput_none _ _ _ _ Hnone).
Qed.

(** When no button is visible the submit loop reports that nothing was
    clicked. *)
Lemma searchMentors_submit_none (selectors : list string) (s s' : St W) :
  all_hidden 1000 selectors s s' ->
  searchMentors_submit selectors s = (Ok false, s').
Proof.
  induction 1 as [s|sel rest s sa sb Hsel _ IH]; [reflexivity|].
  simpl. unfold mbind, M_bind, bind. now rewrite Hsel.
Qed.

(** X9. When the text has been typed and none of the search buttons is
    visible, [searchMentors] submits by pressing Enter in the search input
    it typed into.  If the key press throws, that error is the outcome,
    as the driver raised it; otherwise the outcome is that of
    [waitForSearchResults], which is success when the timer never
    rejects. *)
Theorem searchMentors_enter_fallback (searchInput : Locator) (keyword : string)
    (s s1 s2 : St W) :
  typeText searchInput keyword None s = (Ok tt, s1) ->
  all_hidden 1000 searchButtonSelectors s1 s2 ->
  searchMentors_withInput searchInput keyword s
  = match call (EPress searchInput "Enter") (locator_press searchInput "Enter") s2 with
    | (Ok _, s3) => waitForSearchResults s3
    | (Throw e, s3) => (Throw e, s3)
    end
  /\ (timer_reliable W ->
      forall s3,
        call (EPress searchInput "Enter") (locator_press searchInput "Enter") s2
        = (Ok tt, s3) ->
        searchMentors_withInput searchInput keyword s
        = (Ok tt, (waitForSearchResults s3).2)).
Proof.
  intros Htype Hnone.
  assert (searchMentors_withInput searchInput keyword s
          = match call (EPress searchInput "Enter")
                       (locator_press searchInput "Enter") s2 with
            | (Ok _, s3) => waitForSearchResults s3
            | (Throw e, s3) => (Throw e, s3)
            end) as Hrun.
  { unfold searchMentors_withInput, mbind, M_bind, bind.
    rewrite Htype, (searchMentors_submit_none _ _ _ Hnone).
    now destruct (call _ _ s2) as [[[]|e] s3]. }
  split; [exact Hrun|].
  intros Htimer s3 Hpress. rewrite Hrun, Hpress.
  apply waitForSearchResults_reliable, Htimer.
Qed.

End WithDriver.

Section WithDriverMore.
Context {W : Type} `{Driver W} `{DriverMore W}.

(** X10. For a category that is empty or made of white space only,
    [filterByCategory] throws "Category cannot be empty" and leaves the
    state as it was. *)
Theorem filterByCategory_rejects_blank (category : string) (s : St W) :
  all_space category = true ->
  filterByCategory category s = (Throw (Error "Category cannot be empty"), s).
Proof.
  intros Hblank. unfold filterByCategory, category_is_blank.
  rewrite trim_all_space by assumption. simpl String.length.
  now rewrite orb_true_r.
Qed.

(** X11. When the control of a category is not visible within the default
    5000 ms, [filterByCategory] fails with an error naming the category,
    after that single probe; nothing is clicked. *)
Theorem filterByCategory_missing_control (category : string) (s s1 : St W) :
  category_is_blank category = false ->
  isElementVisible (categoryButton category) None s = (Ok false, s1) ->
  filterByCategory category s
  = (Throw (Error ("Category filter " +:+ dq +:+ category +:+ dq
                   +:+ " not found on the page")), s1)
  /\ new_events s s1 = [EWaitFor (categoryButton category) Visible 5000].
Proof.
  intros Hblank Hprobe. split.
  - unfold filterByCategory. rewrite Hblank.
    unfold mbind, M_bind, bind. now rewrite Hprobe.
  - rewrite isElementVisible_run in Hprobe. cbn zeta in Hprobe.
    injection Hprobe as _ <-. now apply new_events_app.
Qed.

(** X12. When the control of a category is visible and the click goes
    through, the outcome of [filterByCategory] is that of
    [waitForSearchResults]; it is success when the timer never rejects. *)
Theorem filterByCategory_succeeds (category : string) (s s1 s2 : St W) :
  category_is_blank category = false ->
  isElementVisible (categoryButton category) None s = (Ok true, s1) ->
  clickElement (categoryButton category) None s1 = (Ok tt, s2) ->
  filterByCategory category s = waitForSearchResults s2
  /\ (timer_reliable W ->
      filterByCategory category s = (Ok tt, (waitForSearchResults s2).2)).
Proof.
  intros Hblank Hprobe Hclick.
  assert (filterByCategory category s = waitForSearchResults s2) as Hrun.
  { unfold filterByCategory. rewrite Hblank.
    unfold mbind, M_bind, bind. rewrite Hprobe. cbn [negb]. cbn iota.
    now rewrite Hclick. }
  split; [exact Hrun|].
  intros Htimer. rewrite Hrun. apply waitForSearchResults_reliable, Htimer.
Qed.

(** X13. When the login button (or the signup button) is not visible
    within the default 5000 ms, [attemptLogin] (or [attemptSignup]) fails
    with its "not found on the page" error after that single probe. *)
Theorem attemptLogin_attemptSignup_missing (s s1 : St W) :
  (isElementVisible loginButton None s = (Ok false, s1) ->
   attemptLogin s = (Throw (Error "Login button not found on the page"), s1))
  /\ (isElementVisible signupButton None s = (Ok false, s1) ->
      attemptSignup s = (Throw (Error "Signup button not found on the page"), s1)).
Proof.
  split; intros Hprobe.
  - unfold attemptLogin, mbind, M_bind, bind. now rewrite Hprobe.
  - unfold attemptSignup, mbind, M_bind, bind. now rewrite Hprobe.
Qed.

(** X14. When no error message is displayed, [getErrorMessage] returns the
    empty string after the single probe; it does not try to read a text
    and does not throw. *)
Theorem getErrorMessage_without_error (s s1 : St W) :
  isElementVisible errorMessage None s = (Ok false, s1) ->
  getErrorMessage s = (Ok EmptyString, s1).
Proof.
  intros Hprobe. unfold getErrorMessage, hasErrorMessages, mbind, M_bind, bind.
  now rewrite Hprobe.
Qed.

End WithDriverMore.

Lemma searchMentors_no_input_witness :
  (searchMentors "Engineer" Sim.steady_results).1
  = Throw (Error "Search input not available on the page").
Proof.
  erewrite (searchMentors_no_input "Engineer" Sim.steady_results).
  - reflexivity.
  - reflexivity.
  - reflexivity.
  - repeat (eapply all_hidden_cons; [reflexivity|]). apply all_hidden_nil.
Defined.

(** The timer of the simulated browser never rejects. *)
Lemma sim_timer_reliable : timer_reliable Sim.World.
Proof. intros ms w. reflexivity. Qed.

(** On a closed page the first wait of the phase rejects, and that error
    is the outcome; on the simulated page the wait for results returns. *)
Lemma waitForSearchResults_throws_only_timer_witness :
  (exists ms w,
      (@page_waitForTimeout unit Closed.driver ms w).1 = Throw Closed.TargetClosedError)
  /\ (waitForSearchResults Sim.steady_results).1 = Ok tt.
Proof.
  split.
  - apply (proj1 (@waitForSearchResults_throws_only_timer unit Closed.driver
                    Closed.start)).
    reflexivity.
  - apply (proj2 (waitForSearchResults_throws_only_timer Sim.steady_results)).
    exact sim_timer_reliable.
Defined.

Lemma searchMentors_enter_fallback_witness :
  (searchMentors_withInput (locator ".search-input") "Engineer" Sim.two_inputs).1
  = Ok tt.
Proof.
  edestruct (searchMentors_enter_fallback (locator ".search-input") "Engineer"
               Sim.two_inputs) as [_ Hok].
  - reflexivity.
  - repeat (eapply all_hidden_cons; [reflexivity|]). apply all_hidden_nil.
  - erewrite (Hok sim_timer_reliable); reflexivity.
Defined.

Lemma filterByCategory_rejects_blank_witness :
  filterByCategory " " SimMore.with_headings
  = (Throw (Error "Category cannot be empty"), SimMore.with_headings).
Proof. apply filterByCategory_rejects_blank. reflexivity. Defined.

Lemma filterByCategory_missing_control_witness :
  (filterByCategory "Nonexistent" SimMore.with_headings).1
  = Throw (Error ("Category filter " +:+ dq +:+ "Nonexistent" +:+ dq
                  +:+ " not found on the page")).
Proof.
  edestruct (filterByCategory_missing_control "Nonexistent" SimMore.with_headings)
    as [Hrun _]; [reflexivity | reflexivity |].
  now rewrite Hrun.
Defined.

(** A page on which the control of the category "Design" is displayed. *)
Lemma filterByCategory_succeeds_witness :
  (filterByCategory "Design"
     (Sim.start (Sim.mentoring_page 3 false
                   [Sim.selector_of (categoryButton "Design")] None))).1
  = Ok tt.
Proof.
  edestruct (filterByCategory_succeeds "Design"
               (Sim.start (Sim.mentoring_page 3 false
                             [Sim.selector_of (categoryButton "Design")] None)))
    as [_ Hok]; [reflexivity | reflexivity | reflexivity |].
  now rewrite (Hok sim_timer_reliable).
Defined.

Lemma attemptLogin_attemptSignup_missing_witness :
  (attemptLogin SimMore.with_headings).1
  = Throw (Error "Login button not found on the page")
  /\ (attemptSignup SimMore.with_headings).1
     = Throw (Error "Signup button not found on the page").
Proof.
  split.
  - edestruct (attemptLogin_attemptSignup_missing SimMore.with_headings) as [Hlogin _].
    erewrite Hlogin; reflexivity.
  - edestruct (attemptLogin_attemptSignup_missing SimMore.with_headings) as [_ Hsignup].
    erewrite Hsignup; reflexivity.
Defined.

Lemma getErrorMessage_without_error_witness :
  (getErrorMessage SimMore.with_headings).1 = Ok EmptyString.
Proof.
  erewrite (getErrorMessage_without_error SimMore.with_headings); reflexivity.
Defined.

End SearchMoreFacts.

(** ** Sequencing *)

Module MonadFacts.

Lemma mbind_ok {W A B} (m : M W A) (k : A -> M W B) (s s1 : St W) (a : A) :
  m s = (Ok a, s1) -> (m ≫= k) s = k a s1.
Proof. intros Hm. unfold mbind, M_bind, bind. now rewrite Hm. Qed.

Lemma mbind_throw {W A B} (m : M W A) (k : A -> M W B) (s s1 : St W) (e : JsError) :
  m s = (Throw e, s1) -> (m ≫= k) s = (Throw e, s1).
Proof. intros Hm. unfold mbind, M_bind, bind. now rewrite Hm. Qed.

End MonadFacts.

(** ** [MentoringPage], continued: page checks and cards *)

Module CardFacts.
Import JsFacts TrimFacts BasePageFacts BasePageMoreFacts CountFacts TraceFacts MonadFacts.
Section WithDriver.
Context {W : Type} `{Driver W}.

(** The loading-indicator loop of [verifyPageLoaded] swallows every error. *)
Lemma verifyPageLoaded_drain_total (selectors : list string) (s : St W) :
  exists s', verifyPageLoaded_drain selectors s = (Ok tt, s').
Proof.
  revert s. induction selectors as [|sel rest IH]; intros s; [simpl; eauto|].
  simpl. unfold try_catch, mbind, M_bind, bind.
  destruct (call (EIsVisible _) _ s) as [[[]|e] s1]; [|apply IH|apply IH].
  destruct (call _ _ s1) as [[[]|e] s2]; apply IH.
Qed.

(** X15. Once the URL contains "/mentoring", both load states have been
    reached and the 3000 ms pause after the indicator loop has returned,
    the rest of [verifyPageLoaded] is decided by the body text read
    then: with fewer than
    50 space-separated words it fails with the word count in its message;
    otherwise it succeeds whether or not a content selector matches,
    unless [page.$$] itself throws, in which case that error is the
    outcome.  Loading indicators cannot make it fail. *)
Theorem verifyPageLoaded_afterTitle_outcome (s s1 s2 s4 s5 : St W)
    (bodyText : option string) :
  includes (page_url (world s)) "/mentoring" = true ->
  call (EWaitForLoadState DomContentLoaded None)
       (page_waitForLoadState DomContentLoaded None) (getCurrentUrl s).2 = (Ok tt, s1) ->
  call (EWaitForLoadState NetworkIdle None)
       (page_waitForLoadState NetworkIdle None) s1 = (Ok tt, s2) ->
  wait 3000 (verifyPageLoaded_drain loadingSelectors s2).2 = (Ok tt, s4) ->
  call (ETextContent "body") (page_textContent "body") s4 = (Ok bodyText, s5) ->
  verifyPageLoaded_afterTitle s
  = if (wordCount_of bodyText <? 50)%nat then
      (Throw (Error ("Page appears to be empty or not fully loaded. Word count: "
                     +:+ show_nat (wordCount_of bodyText))), s5)
    else
      match verifyPageLoaded_content contentSelectors s5 with
      | (Ok _, s6) => (Ok tt, s6)
      | (Throw e, s6) => (Throw e, s6)
      end.
Proof.
  intros Hurl Hdom Hidle Hpause Hbody.
  assert (verifyCurrentUrl "/mentoring" s = (Ok tt, (getCurrentUrl s).2)) as Hcheck.
  { unfold verifyCurrentUrl, getCurrentUrl, call_total, mbind, M_bind, bind.
    cbn beta iota zeta. now rewrite Hurl. }
  destruct (verifyPageLoaded_drain_total loadingSelectors s2) as [s3 Hdrain].
  rewrite Hdrain in Hpause. cbn [snd] in Hpause.
  unfold verifyPageLoaded_afterTitle.
  rewrite (mbind_ok _ _ _ _ _ Hcheck), (mbind_ok _ _ _ _ _ Hdom),
    (mbind_ok _ _ _ _ _ Hidle), (mbind_ok _ _ _ _ _ Hdrain),
    (mbind_ok _ _ _ _ _ Hpause), (mbind_ok _ _ _ _ _ Hbody).
  destruct (wordCount_of bodyText <? 50)%nat; [reflexivity|].
  destruct (verifyPageLoaded_content contentSelectors s5) as [[b|e] s6] eqn:Hcontent.
  - now rewrite (mbind_ok _ _ _ _ _ Hcontent).
  - now rewrite (mbind_throw _ _ _ _ _ Hcontent).
Qed.

(** X16. When [getMentorCount] returns a positive count it has made exactly
    thirteen driver calls: the 2000 ms pause and one [page.$$] per card
    selector, all twelve in list order; it does not stop at the first
    selector that matches and it probes no "no results" indicator. *)
Theorem getMentorCount_calls_when_found (s s' : St W) (n : nat) :
  getMentorCount s = (Ok n, s') ->
  (0 < n)%nat ->
  new_events s s' = EWaitForTimeout 2000 :: (EQueryAll <$> cardSelectors).
Proof.
  intros Hrun Hpos.
  destruct (getMentorCount_ok _ _ _ Hrun) as [Hwait _].
  pose proof (getMentorCount_spec s Hwait) as Hspec. cbn zeta in Hspec.
  set (obs := queryAll_each cardSelectors (wait 2000 s).2) in *.
  assert (trace obs.2 = trace s ++ EWaitForTimeout 2000 :: (EQueryAll <$> cardSelectors))
    as Hobs.
  { unfold obs. rewrite queryAll_each_trace, wait_trace.
    now rewrite <- app_assoc. }
  rewrite Hspec in Hrun. destruct (0 <? _)%nat.
  - injection Hrun as _ <-. now apply new_events_app.
  - injection Hrun as <- _. lia.
Qed.

End WithDriver.

Section WithDriverMore.
Context {W : Type} `{Driver W} `{DriverMore W}.

(** X17. [clickMentorCard] with an index that is not below the number of
    cards counted fails right after counting, before anything is
    scrolled or clicked: with "No mentor cards available to click" when
    the count is zero, and otherwise with an error naming the index and
    the count. *)
Theorem clickMentorCard_out_of_range (index : option nat) (s s1 : St W) (n : nat) :
  getMentorCount s = (Ok n, s1) ->
  (n <= default 0 index)%nat ->
  clickMentorCard index s
  = (Throw (Error (if (n =? 0)%nat then "No mentor cards available to click"
                   else "Mentor card index " +:+ show_nat (default 0%nat index)
                        +:+ " is out of range. Only " +:+ show_nat n
                        +:+ " cards available.")), s1).
Proof.
  intros Hcount Hrange. unfold clickMentorCard, mbind, M_bind, bind.
  rewrite Hcount. destruct (n =? 0)%nat; [reflexivity|].
  destruct (Nat.leb_spec n (default 0%nat index)); [reflexivity | lia].
Qed.

(** The loop of [getMentorCompanies] never throws; it adds at most one
    company per index, each of them trimmed and not empty. *)
Lemma getMentorCompanies_loop_spec (indices : list nat) (companies : list string)
    (s : St W) :
  exists companies' s',
    getMentorCompanies_loop indices companies s = (Ok companies', s')
    /\ (length companies' <= length companies + length indices)%nat
    /\ (Forall (fun c => c <> EmptyString /\ trim c = c) companies ->
        Forall (fun c => c <> EmptyString /\ trim c = c) companies').
Proof.
  revert companies s. induction indices as [|i rest IH]; intros companies s.
  - exists companies, s. simpl. repeat split; [lia | auto].
  - simpl. unfold try_catch, mbind at 1, M_bind, bind at 1.
    unfold mbind at 1. unfold bind at 1.
    rewrite isElementVisible_run. cbn zeta.
    set (s1 := mkSt _ _).
    assert (forall s2, exists companies' s',
               getMentorCompanies_loop rest companies s2 = (Ok companies', s')
               /\ (length companies' <= length companies + S (length rest))%nat
               /\ (Forall (fun c => c <> EmptyString /\ trim c = c) companies ->
                   Forall (fun c => c <> EmptyString /\ trim c = c) companies'))
      as Hskip.
    { intros s2. destruct (IH companies s2) as (cs & s' & -> & Hlen & Hall).
      exists cs, s'. repeat split; [lia | exact Hall]. }
    destruct (is_ok _); [|apply Hskip].
    unfold mbind at 1. unfold bind at 1.
    destruct (getElementText (nth mentorCompanies i) s1) as [[company|e] s2] eqn:Htext;
      [|apply Hskip].
    destruct (String.eqb_spec company EmptyString) as [->|Hne]; [apply Hskip|].
    cbn [negb andb]. destruct (0 <? String.length company)%nat; [|apply Hskip].
    unfold mret, M_ret, ret.
    destruct (IH (companies ++ [company]) s2) as (cs & s' & -> & Hlen & Hall).
    exists cs, s'. split; [reflexivity|]. split.
    + rewrite length_app in Hlen. simpl in Hlen. lia.
    + intros Hcs. apply Hall. apply Forall_app. split; [exact Hcs|].
      constructor; [|constructor]. split; [exact Hne|].
      destruct (getElementText_inv _ _ _ _ Htext) as [text ->].
      apply trimmed_or_empty_trimmed.
Qed.

(** X18. [getMentorCompanies] throws only when the pause at the start of
    [getMentorCount] rejects, and then with that error; errors met while
    visiting the company elements are swallowed.  Otherwise it returns
    at most [maxCount] companies (none for a negative [maxCount]) and at
    most as many as there are cards; every company is trimmed and not
    empty. *)
Theorem getMentorCompanies_bounded (maxCount : option Z) (s : St W) :
  match (wait 2000 s).1 with
  | Ok _ =>
      exists companies s',
        getMentorCompanies maxCount s = (Ok companies, s')
        /\ Z.of_nat (length companies) <= Z.max 0 (default 5 maxCount)
        /\ (length companies <= count_of (getMentorCount s).1)%nat
        /\ Forall (fun c => c <> EmptyString /\ trim c = c) companies
  | Throw e => (getMentorCompanies maxCount s).1 = Throw e
  end.
Proof.
  unfold getMentorCompanies, mbind at 1, M_bind, bind at 1.
  destruct (getMentorCount_run s) as (evs & _ & _ & Hcase).
  destruct (wait 2000 s).1 as [[]|e].
  - destruct Hcase as [[n Hn] _].
    destruct (getMentorCount s) as [r s1]. cbn [fst] in *. subst r.
    destruct (n =? 0)%nat eqn:Hzero.
    + exists [], s1. repeat split; simpl; [lia | lia | constructor].
    + destruct (getMentorCompanies_loop_spec
                  (seq 0 (iterations n (default 5 maxCount))) [] s1)
        as (cs & s' & Hloop & Hlen & Hall).
      exists cs, s'. split; [exact Hloop|].
      rewrite length_seq in Hlen. unfold iterations in Hlen. simpl in Hlen.
      repeat split; [lia | simpl; lia | apply Hall; constructor].
  - destruct Hcase as [He _]. unfold getMentorCompanies, mbind, M_bind, bind.
    destruct (getMentorCount s) as [r s1]. cbn [fst] in *. now subst r.
Qed.

End WithDriverMore.

(** The error page of a broken build has a body of two words. *)
Lemma verifyPageLoaded_afterTitle_outcome_witness :
  (verifyPageLoaded_afterTitle Sim.not_found_page).1
  = Throw (Error "Page appears to be empty or not fully loaded. Word count: 2").
Proof.
  erewrite (verifyPageLoaded_afterTitle_outcome Sim.not_found_page _ _ _ _
              (Some "Not Found"));
    [reflexivity | reflexivity | reflexivity | reflexivity | reflexivity | reflexivity].
Defined.

Lemma getMentorCount_calls_when_found_witness :
  new_events Sim.steady_results (getMentorCount Sim.steady_results).2
  = EWaitForTimeout 2000 :: (EQueryAll <$> cardSelectors).
Proof.
  apply (getMentorCount_calls_when_found Sim.steady_results _ 3);
    [reflexivity | lia].
Defined.

(** Three cards are counted; the fourth does not exist. *)
Lemma clickMentorCard_out_of_range_witness :
  (clickMentorCard (Some 3%nat) SimMore.with_headings).1
  = Throw (Error "Mentor card index 3 is out of range. Only 3 cards available.").
Proof.
  rewrite (clickMentorCard_out_of_range (Some 3%nat) SimMore.with_headings
             (getMentorCount SimMore.with_headings).2 3);
    [vm_compute; reflexivity | vm_compute; reflexivity | simpl; lia].
Defined.

End CardFacts.

(** ** [MentoringPage], continued: mentor names *)

Module NameFacts.
Import JsFacts TrimFacts MonadFacts.

(** A text that passes the test of [getMentorNames] looks like a name. *)
Lemma name_of_text_like (text : option string) (n : string) :
  name_of_text text = Some n -> name_like n.
Proof.
  unfold name_of_text. destruct text as [text|]; [|discriminate].
  destruct (negb (String.eqb text EmptyString)
            && (0 <? String.length (trim text))%nat
            && (String.length (trim text) <? 100)%nat) eqn:Hsize; [|discriminate].
  cbn zeta.
  destruct (negb (includes (toLowerCase (trim text)) "mentoring")
            && negb (includes (toLowerCase (trim text)) "karir")
            && negb (includes (toLowerCase (trim text)) "tingkatkan")
            && (split_space_length (trim text) <=? 4)%nat) eqn:Hwords; [|discriminate].
  intros [= <-].
  apply andb_prop in Hsize as [[_ Hpos]%andb_prop Hlt].
  apply andb_prop in Hwords as [[[Hm Hk]%andb_prop Ht]%andb_prop Hw].
  apply Nat.ltb_lt in Hpos, Hlt. apply Nat.leb_le in Hw.
  apply negb_true_iff in Hm, Hk, Ht.
  repeat split; try assumption. apply trim_idem.
Qed.

Lemma existsb_eqb_elem (n : string) (seen : list string) :
  existsb (String.eqb n) seen = true <-> n ∈ seen.
Proof.
  rewrite existsb_exists. split.
  - intros (x & Hin & ->%String.eqb_eq). now apply list_elem_of_In.
  - intros Hin. exists n. split; [now apply list_elem_of_In | apply String.eqb_refl].
Qed.

(** [unique_from] keeps each new value once. *)
Lemma unique_from_spec (seen names : list string) :
  NoDup (unique_from seen names)
  /\ (forall x, x ∈ unique_from seen names -> x ∈ names /\ x ∉ seen).
Proof.
  revert seen. induction names as [|n rest IH]; intros seen; simpl.
  - split; [constructor | intros x Hx; inversion Hx].
  - destruct (existsb (String.eqb n) seen) eqn:Hseen.
    + destruct (IH seen) as [Hnd Hsub]. split; [exact Hnd|].
      intros x Hx. destruct (Hsub x Hx). split; [now right | assumption].
    + destruct (IH (n :: seen)) as [Hnd Hsub]. split.
      * constructor; [|exact Hnd]. intros Hin.
        destruct (Hsub n Hin) as [_ Hnot]. apply Hnot. now left.
      * intros x [->|Hx]%elem_of_cons.
        -- split; [now left|]. intros Hin%existsb_eqb_elem. congruence.
        -- destruct (Hsub x Hx) as [Hrest Hnot]. split; [now right|].
           intros Hin. apply Hnot. now right.
Qed.

Lemma unique_from_length (seen names : list string) :
  (length (unique_from seen names) <= length names)%nat.
Proof.
  revert seen. induction names as [|n rest IH]; intros seen; simpl; [lia|].
  destruct (existsb _ seen); simpl.
  - specialize (IH seen). lia.
  - specialize (IH (n :: seen)). lia.
Qed.

(** [slice0] takes a prefix. *)
Lemma slice0_take {A} (n : Z) (a : list A) : exists k, slice0 n a = take k a.
Proof. unfold slice0. destruct (0 <=? n); eauto. Qed.

Section WithDriver.
Context {W : Type} `{Driver W} `{DriverMore W}.

(** The inner loop only adds texts that look like names, and stops at
    [maxCount] names. *)
Lemma getMentorNames_elements_spec (elements : list Handle) (maxCount : Z)
    (names names' : list string) (s s' : St W) :
  getMentorNames_elements elements maxCount names s = (Ok names', s') ->
  (Forall name_like names -> Forall name_like names')
  /\ (Z.of_nat (length names) < maxCount -> Z.of_nat (length names') <= maxCount)
  /\ (elements = [] -> names' = names).
Proof.
  revert names s. induction elements as [|element rest IH]; intros names s.
  - simpl. intros [= <- _]. repeat split; [auto | lia].
  - simpl. unfold try_catch, mbind at 1, M_bind, bind at 1.
    unfold mbind at 1. unfold bind at 1. unfold call_more.
    destruct (handle_textContent element (world s)) as [[text|e] w1].
    + unfold mret, M_ret, ret. destruct (name_of_text text) as [cleanText|] eqn:Hname.
      * destruct (Z.leb_spec maxCount (Z.of_nat (length (names ++ [cleanText]))))
          as [Hfull|Hroom].
        -- intros [= <- _]. rewrite length_app in *. simpl length in *.
           repeat split; [|lia|discriminate].
           intros Hall. apply Forall_app. split; [exact Hall|].
           constructor; [|constructor]. now apply name_of_text_like with text.
        -- intros Hrun. destruct (IH _ _ Hrun) as (Hall & Hlen & _).
           repeat split; [|auto|discriminate].
           intros Hnames. apply Hall, Forall_app. split; [exact Hnames|].
           constructor; [|constructor]. now apply name_of_text_like with text.
      * intros Hrun. destruct (IH _ _ Hrun) as (Hall & Hlen & _).
        repeat split; [auto | auto | discriminate].
    + unfold mret, M_ret, ret. intros Hrun.
      destruct (IH _ _ Hrun) as (Hall & Hlen & _).
      repeat split; [auto | auto | discriminate].
Qed.

(** The outer loop keeps the same invariants. *)
Lemma getMentorNames_selectors_spec (selectors : list string) (maxCount : Z)
    (names names' : list string) (s s' : St W) :
  getMentorNames_selectors selectors maxCount names s = (Ok names', s') ->
  (Forall name_like names -> Forall name_like names')
  /\ (Z.of_nat (length names) < maxCount \/ (maxCount <= 0 /\ names = []) ->
      Z.of_nat (length names') <= Z.max 0 maxCount).
Proof.
  revert names s. induction selectors as [|selector rest IH]; intros names s.
  - simpl. intros [= <- _]. split; [auto|].
    intros [Hlt | [Hneg ->]]; simpl; lia.
  - simpl. unfold mbind at 1, M_bind, bind at 1.
    destruct (call_more (page_queryHandles selector) s) as [[elements|e] s1];
      [|discriminate].
    unfold mbind at 1. unfold bind at 1.
    destruct (getMentorNames_elements _ maxCount names s1) as [[names1|e] s2] eqn:Hinner;
      [|discriminate].
    destruct (getMentorNames_elements_spec _ _ _ _ _ _ Hinner) as (Hall & Hlen & Hnil).
    destruct (Z.leb_spec maxCount (Z.of_nat (length names1))) as [Hfull|Hroom].
    + intros [= <- _]. split; [exact Hall|].
      intros [Hlt | [Hneg ->]].
      * specialize (Hlen Hlt). lia.
      * rewrite Hnil; [simpl; lia|].
        unfold iterations. replace (Z.to_nat _) with 0%nat by lia. apply take_0.
    + intros Hrun. destruct (IH _ _ Hrun) as (Hall' & Hlen').
      split; [auto|]. intros _. apply Hlen'. now left.
Qed.

(** X19. Whatever [getMentorNames] returns has no duplicates, has at most
    [maxCount] entries (none for a [maxCount] below one), and consists of
    texts that look like names: trimmed, of 1 to 99 characters and at
    most four space-separated words, and free of the words "mentoring",
    "karir" and "tingkatkan" in any case. *)
Theorem getMentorNames_result (maxCount : option Z) (s s' : St W)
    (names : list string) :
  getMentorNames maxCount s = (Ok names, s') ->
  NoDup names
  /\ Z.of_nat (length names) <= Z.max 0 (default 10 maxCount)
  /\ Forall name_like names.
Proof.
  unfold getMentorNames, mbind, M_bind, bind.
  destruct (getMentorNames_selectors nameSelectors (default 10 maxCount) [] s)
    as [[names0|e] s1] eqn:Hloop; [|discriminate].
  unfold mret, M_ret, ret. intros [= <- _].
  destruct (getMentorNames_selectors_spec _ _ _ _ _ _ Hloop) as (Hall & Hlen).
  specialize (Hall ltac:(constructor)).
  assert (Z.of_nat (length names0) <= Z.max 0 (default 10 maxCount)) as Hbound.
  { apply Hlen. destruct (Z.lt_ge_cases 0 (default 10 maxCount)); [left | right];
      simpl; auto with lia. }
  destruct (unique_from_spec [] names0) as [Hnd Hsub].
  destruct (slice0_take (default 10 maxCount) (unique names0)) as [k ->].
  split; [|split].
  - exact (sublist_NoDup _ _ Hnd (sublist_take _ _)).
  - pose proof (unique_from_length [] names0).
    rewrite length_take. unfold unique. lia.
  - apply Forall_take. apply Forall_forall. intros x Hx.
    destruct (Hsub x Hx) as [Hin _].
    now apply (proj1 (Forall_forall _ _) Hall).
Qed.

End WithDriver.

(** Seven headings, two names: the banner and the tagline are refused, the
    unreadable and the empty element are skipped, the repeated name is
    kept once. *)
Lemma getMentorNames_result_witness :
  (getMentorNames None SimMore.with_headings).1 = Ok ["Budi Santoso"; "Siti Rahma"]
  /\ NoDup ["Budi Santoso"; "Siti Rahma"]
  /\ Forall name_like ["Budi Santoso"; "Siti Rahma"].
Proof.
  split; [reflexivity|].
  assert (getMentorNames None SimMore.with_headings
          = (Ok ["Budi Santoso"; "Siti Rahma"],
             (getMentorNames None SimMore.with_headings).2)) as Hrun
    by (vm_compute; reflexivity).
  destruct (getMentorNames_result None SimMore.with_headings _ _ Hrun)
    as (Hnd & _ & Hall).
  split; [exact Hnd | exact Hall].
Defined.

End NameFacts.

(** ** Navigation *)

Module NavigationFacts.
Import MonadFacts.
Section WithDriver.
Context {W : Type} `{Driver W} `{DriverMore W}.

(** X20. [navigateToMentoring] asks the driver for the base URL followed
    by "/mentoring", waiting for network idle with a timeout of 30000 ms.
    If that navigation throws, the outcome is an error that names the
    path "/mentoring" and the cause, and neither the load wait nor the
    page verification takes place; otherwise they follow. *)
Theorem navigateToMentoring_navigation (baseURL : string) (s : St W) :
  navigateToMentoring baseURL s
  = match page_goto (baseURL +:+ "/mentoring") NetworkIdle 30000 (world s) with
    | (Ok _, w') =>
        (waitForPageLoad None ;; verifyPageLoaded : M W unit) (mkSt w' (trace s))
    | (Throw e, w') =>
        (Throw (Error ("Failed to navigate to /mentoring: " +:+ error_toString e)),
         mkSt w' (trace s))
    end.
Proof.
  unfold navigateToMentoring, goto, try_catch, call_more, mbind at 1, M_bind, bind at 1.
  change (fullUrl_of baseURL "/mentoring") with (baseURL +:+ "/mentoring").
  cbn [default].
  destruct (page_goto (baseURL +:+ "/mentoring") NetworkIdle 30000 (world s))
    as [[[]|e] w']; reflexivity.
Qed.

End WithDriver.

(** X21. When [PLAYWRIGHT_BASE_URL] is unset or empty, the base URL of the
    page objects is the base URL of the development profile, which is
    also the one [getTestConfig] selects by default; a non-empty value
    of the variable replaces it. *)
Theorem baseURL_of_default (env : gmap string string) :
  baseURL_of (delete "PLAYWRIGHT_BASE_URL" env)
  = TestConfig.base (TestConfig.urls (TestConfig.getTestConfig (delete "TEST_ENV" env)))
  /\ baseURL_of (<["PLAYWRIGHT_BASE_URL" := EmptyString]> env)
     = TestConfig.base (TestConfig.urls TestConfig.development)
  /\ (forall v, v <> EmptyString ->
        baseURL_of (<["PLAYWRIGHT_BASE_URL" := v]> env) = v).
Proof.
  unfold baseURL_of, TestConfig.getTestConfig, TestConfig.environment_of.
  rewrite !lookup_delete_eq. split; [reflexivity|]. split.
  - now rewrite lookup_insert_eq.
  - intros v Hv. rewrite lookup_insert_eq.
    now destruct (String.eqb_spec v EmptyString).
Qed.

Lemma baseURL_of_default_witness :
  baseURL_of (<["PLAYWRIGHT_BASE_URL" := "http://localhost:3000"]> ∅)
  = "http://localhost:3000".
Proof.
  apply (proj2 (proj2 (baseURL_of_default ∅))). discriminate.
Defined.

End NavigationFacts.
